(** * Wallet and network session manager of [src/App.jsx]

    A shallow embedding of the session layer of the Dice front end: the
    toast queue ([addToast], [removeToast]), the error handler
    ([handleError]), network validation ([validateNetwork]), contract
    binding ([initializeContracts]), the wallet event handlers
    ([handleChainChanged], [handleAccountsChanged]), [connectWallet],
    [switchNetwork], [handleLogout] and the mount effect [init].

    React state, the [window] object and the pending timers are fields of
    one [World]; each handler is a computation in a state-and-exception
    monad over it, and [step] is one turn of the event loop.

    - An [async] function is cut where it can stay suspended: at the two
      wallet requests of [switchNetwork] and at its [networkSwitchPromise],
      and in [connectWallet] at [await switchNetwork("mainnet")].  The other
      awaited calls ([provider.getNetwork], [provider.getBlockNumber],
      [provider.getSigner], [eth_requestAccounts], [eth_accounts]) are
      answered at once from the [Wallet] record of the world, so a handler
      runs through them without another handler in between.
    - A handler reads the state of the render it was created in.
      [handleChainChanged] is registered again whenever [provider] or
      [account] changes and so reads the current state; a run of
      [switchNetwork] keeps the [account] it was called with.
    - [parseInt(newChainId)] is taken as done: a chain-changed event carries
      the number.  All [BrowserProvider] objects wrap the one
      [window.ethereum] and are not told apart. *)

From Stdlib Require Import ZArith String Ascii List Bool Lia.
From Stdlib Require DecimalString HexadecimalString.
Import ListNotations.

Local Open Scope Z_scope.
Local Open Scope string_scope.
Local Open Scope list_scope.

Notation "s +++ t" := (String.append s t) (at level 60, right associativity).

(* ================================================================== *)
(** ** JavaScript values *)

(** [String(n)] for an integer, as in a template literal. *)
Definition string_of_Z (n : Z) : string :=
  DecimalString.NilZero.string_of_int (Z.to_int n).

(** [n.toString(16)]. *)
Definition toString16 (n : Z) : string :=
  HexadecimalString.NilZero.string_of_int (Z.to_hex_int n).

(** [s.includes(sub)]. *)
Fixpoint includes (s sub : string) : bool :=
  String.prefix sub s ||
  match s with
  | EmptyString => false
  | String _ s' => includes s' sub
  end.

(** [l.slice(-n)]: the last [n] elements. *)
Definition slice_last {A} (n : nat) (l : list A) : list A :=
  skipn (length l - n) l.

(** An error object: [error.code] (a number, when the wallet sets one) and
    [error.message].  A code that is not a number is never [===] to one
    and is modelled as absent. *)
Record JsError := { err_code : option Z; err_message : option string }.

(** [new Error(msg)]. *)
Definition Error (msg : string) : JsError :=
  {| err_code := None; err_message := Some msg |}.

Inductive Result (A : Type) : Type :=
| Ok (a : A)
| Throw (e : JsError).
Arguments Ok {A} a.
Arguments Throw {A} e.

(* ================================================================== *)
(** ** Network registry (lines 51-76) *)

(** The [import.meta.env] values read by [NETWORKS]. *)
Record ImportMetaEnv := {
  VITE_XDC_MAINNET_RPC : string;
  VITE_TOKEN_ADDRESS : string;
  VITE_DICE_ADDRESS : string;
  VITE_XDC_APOTHEM_RPC : string;
  VITE_APOTHEM_TOKEN_ADDRESS : string;
  VITE_APOTHEM_DICE_ADDRESS : string
}.

Record ContractAddresses := { addr_token : string; addr_dice : string }.

Record NetworkConfig := {
  net_chainId : Z;
  net_name : string;
  net_rpcUrl : string;
  net_contracts : ContractAddresses
}.

Definition MAINNET (env : ImportMetaEnv) : NetworkConfig :=
  {| net_chainId := 50;
     net_name := "XDC Mainnet";
     net_rpcUrl := VITE_XDC_MAINNET_RPC env;
     net_contracts := {| addr_token := VITE_TOKEN_ADDRESS env;
                         addr_dice := VITE_DICE_ADDRESS env |} |}.

Definition APOTHEM (env : ImportMetaEnv) : NetworkConfig :=
  {| net_chainId := 51;
     net_name := "XDC Apothem Testnet";
     net_rpcUrl := VITE_XDC_APOTHEM_RPC env;
     net_contracts := {| addr_token := VITE_APOTHEM_TOKEN_ADDRESS env;
                         addr_dice := VITE_APOTHEM_DICE_ADDRESS env |} |}.

(** The object [NETWORKS], in key order. *)
Definition NETWORKS (env : ImportMetaEnv) : list (string * NetworkConfig) :=
  [("MAINNET", MAINNET env); ("APOTHEM", APOTHEM env)].

Definition SUPPORTED_CHAIN_IDS (env : ImportMetaEnv) : list Z :=
  [net_chainId (MAINNET env); net_chainId (APOTHEM env)].

(** [SUPPORTED_CHAIN_IDS.includes(id)]. *)
Definition supported (env : ImportMetaEnv) (id : Z) : bool :=
  existsb (Z.eqb id) (SUPPORTED_CHAIN_IDS env).

(* ================================================================== *)
(** ** Session data *)

Inductive ToastType := info | success | warning | error.

Record Toast := {
  toast_id : string;
  toast_message : string;
  toast_type : ToastType
}.

Inductive Provider := BrowserProvider.

Record Signer := { signer_account : string }.

Inductive Abi := TokenABI | DiceABI.

(** [new ethers.Contract(target, abi, runner)]. *)
Record Contract := {
  contract_target : string;
  contract_abi : Abi;
  contract_runner : Signer
}.

Record Contracts := { token : option Contract; dice : option Contract }.

Definition no_contracts : Contracts := {| token := None; dice := None |}.

Record LoadingStates := {
  ls_provider : bool;
  ls_contracts : bool;
  ls_wallet : bool
}.

(** What the wallet and the RPC endpoint answer at present. *)
Record Wallet := {
  getNetwork : Result Z;                 (* Number((await provider.getNetwork()).chainId) *)
  getBlockNumber : Result Z;
  getSigner_error : option JsError;      (* provider.getSigner(account) rejects with it *)
  eth_requestAccounts : Result (list string);
  eth_accounts : Result (list string)
}.

Record NativeCurrency := {
  nc_name : string;
  nc_symbol : string;
  nc_decimals : Z
}.

Record AddChainParams := {
  add_chainId : string;
  add_chainName : string;
  add_rpcUrls : list string;
  add_nativeCurrency : NativeCurrency
}.

(** The calls of [window.ethereum.request], in the order they are made. *)
Inductive Request :=
| req_eth_requestAccounts
| req_eth_accounts
| req_wallet_switchEthereumChain (chainIdHex : string)
| req_wallet_addEthereumChain (params : AddChainParams).

(** The two kinds of [setTimeout] callbacks. *)
Inductive TimerAction :=
| ExpireToast (id : string)     (* addToast, 5000 ms *)
| RejectSwitch (run : nat).     (* networkSwitchPromise, 10000 ms *)

Record Timer := { timer_due : Z; timer_action : TimerAction }.

(** The listeners of the wallet's [chainChanged] event: the application's
    [handleChainChanged] and the [chainChangeHandler] closures of the runs
    of [switchNetwork]. *)
Inductive Listener :=
| AppChainHandler
| chainChangeHandler (run : nat).

Inductive PromiseState :=
| Pending
| Resolved
| Rejected (e : JsError).

(** Where a run of [switchNetwork] is suspended. *)
Inductive SwitchPhase :=
| AwaitSwitchRequest       (* await request(wallet_switchEthereumChain) *)
| AwaitAddRequest          (* await request(wallet_addEthereumChain) *)
| AwaitConfirmation        (* await networkSwitchPromise *)
| Settled (r : Result unit).

(** Who awaits the run. *)
Inductive Caller :=
| FromButton               (* onClick: the promise is dropped *)
| FromConnectWallet.       (* await switchNetwork("mainnet") *)

Record SwitchRun := {
  run_network : NetworkConfig;          (* const network *)
  run_chainIdHex : string;              (* const chainIdHex *)
  run_account : string;                 (* account, as captured by the callback *)
  run_promise : PromiseState;           (* networkSwitchPromise *)
  run_phase : SwitchPhase;
  run_caller : Caller
}.

Record World := {
  (* useState of App *)
  provider : option Provider;
  contracts : Contracts;
  account : string;
  chainId : option Z;
  toasts : list Toast;
  loadingStates : LoadingStates;
  (* window *)
  lastErrorKey : option string;         (* window._lastErrorKey *)
  ethereum : bool;                      (* window.ethereum is present *)
  listeners : list Listener;            (* of "chainChanged", in order of registration *)
  requests : list Request;
  wallet : Wallet;
  (* runtime *)
  clock : Z;                            (* Date.now() *)
  random_tape : nat -> string;          (* Math.random().toString(36).substr(2, 9) *)
  random_pos : nat;
  timers : list Timer;
  runs : list SwitchRun
}.

(** *** Field updates *)

Definition with_provider (v : option Provider) (w : World) : World :=
  {| provider := v; contracts := contracts w; account := account w;
     chainId := chainId w; toasts := toasts w; loadingStates := loadingStates w;
     lastErrorKey := lastErrorKey w; ethereum := ethereum w;
     listeners := listeners w; requests := requests w; wallet := wallet w;
     clock := clock w; random_tape := random_tape w; random_pos := random_pos w;
     timers := timers w; runs := runs w |}.

Definition with_contracts (v : Contracts) (w : World) : World :=
  {| provider := provider w; contracts := v; account := account w;
     chainId := chainId w; toasts := toasts w; loadingStates := loadingStates w;
     lastErrorKey := lastErrorKey w; ethereum := ethereum w;
     listeners := listeners w; requests := requests w; wallet := wallet w;
     clock := clock w; random_tape := random_tape w; random_pos := random_pos w;
     timers := timers w; runs := runs w |}.

Definition with_account (v : string) (w : World) : World :=
  {| provider := provider w; contracts := contracts w; account := v;
     chainId := chainId w; toasts := toasts w; loadingStates := loadingStates w;
     lastErrorKey := lastErrorKey w; ethereum := ethereum w;
     listeners := listeners w; requests := requests w; wallet := wallet w;
     clock := clock w; random_tape := random_tape w; random_pos := random_pos w;
     timers := timers w; runs := runs w |}.

Definition with_chainId (v : option Z) (w : World) : World :=
  {| provider := provider w; contracts := contracts w; account := account w;
     chainId := v; toasts := toasts w; loadingStates := loadingStates w;
     lastErrorKey := lastErrorKey w; ethereum := ethereum w;
     listeners := listeners w; requests := requests w; wallet := wallet w;
     clock := clock w; random_tape := random_tape w; random_pos := random_pos w;
     timers := timers w; runs := runs w |}.

Definition with_toasts (v : list Toast) (w : World) : World :=
  {| provider := provider w; contracts := contracts w; account := account w;
     chainId := chainId w; toasts := v; loadingStates := loadingStates w;
     lastErrorKey := lastErrorKey w; ethereum := ethereum w;
     listeners := listeners w; requests := requests w; wallet := wallet w;
     clock := clock w; random_tape := random_tape w; random_pos := random_pos w;
     timers := timers w; runs := runs w |}.

Definition with_loadingStates (v : LoadingStates) (w : World) : World :=
  {| provider := provider w; contracts := contracts w; account := account w;
     chainId := chainId w; toasts := toasts w; loadingStates := v;
     lastErrorKey := lastErrorKey w; ethereum := ethereum w;
     listeners := listeners w; requests := requests w; wallet := wallet w;
     clock := clock w; random_tape := random_tape w; random_pos := random_pos w;
     timers := timers w; runs := runs w |}.

Definition with_lastErrorKey (v : option string) (w : World) : World :=
  {| provider := provider w; contracts := contracts w; account := account w;
     chainId := chainId w; toasts := toasts w; loadingStates := loadingStates w;
     lastErrorKey := v; ethereum := ethereum w;
     listeners := listeners w; requests := requests w; wallet := wallet w;
     clock := clock w; random_tape := random_tape w; random_pos := random_pos w;
     timers := timers w; runs := runs w |}.

Definition with_listeners (v : list Listener) (w : World) : World :=
  {| provider := provider w; contracts := contracts w; account := account w;
     chainId := chainId w; toasts := toasts w; loadingStates := loadingStates w;
     lastErrorKey := lastErrorKey w; ethereum := ethereum w;
     listeners := v; requests := requests w; wallet := wallet w;
     clock := clock w; random_tape := random_tape w; random_pos := random_pos w;
     timers := timers w; runs := runs w |}.

Definition with_requests (v : list Request) (w : World) : World :=
  {| provider := provider w; contracts := contracts w; account := account w;
     chainId := chainId w; toasts := toasts w; loadingStates := loadingStates w;
     lastErrorKey := lastErrorKey w; ethereum := ethereum w;
     listeners := listeners w; requests := v; wallet := wallet w;
     clock := clock w; random_tape := random_tape w; random_pos := random_pos w;
     timers := timers w; runs := runs w |}.

Definition with_wallet (v : Wallet) (w : World) : World :=
  {| provider := provider w; contracts := contracts w; account := account w;
     chainId := chainId w; toasts := toasts w; loadingStates := loadingStates w;
     lastErrorKey := lastErrorKey w; ethereum := ethereum w;
     listeners := listeners w; requests := requests w; wallet := v;
     clock := clock w; random_tape := random_tape w; random_pos := random_pos w;
     timers := timers w; runs := runs w |}.

Definition with_clock (v : Z) (w : World) : World :=
  {| provider := provider w; contracts := contracts w; account := account w;
     chainId := chainId w; toasts := toasts w; loadingStates := loadingStates w;
     lastErrorKey := lastErrorKey w; ethereum := ethereum w;
     listeners := listeners w; requests := requests w; wallet := wallet w;
     clock := v; random_tape := random_tape w; random_pos := random_pos w;
     timers := timers w; runs := runs w |}.

Definition with_random_pos (v : nat) (w : World) : World :=
  {| provider := provider w; contracts := contracts w; account := account w;
     chainId := chainId w; toasts := toasts w; loadingStates := loadingStates w;
     lastErrorKey := lastErrorKey w; ethereum := ethereum w;
     listeners := listeners w; requests := requests w; wallet := wallet w;
     clock := clock w; random_tape := random_tape w; random_pos := v;
     timers := timers w; runs := runs w |}.

Definition with_timers (v : list Timer) (w : World) : World :=
  {| provider := provider w; contracts := contracts w; account := account w;
     chainId := chainId w; toasts := toasts w; loadingStates := loadingStates w;
     lastErrorKey := lastErrorKey w; ethereum := ethereum w;
     listeners := listeners w; requests := requests w; wallet := wallet w;
     clock := clock w; random_tape := random_tape w; random_pos := random_pos w;
     timers := v; runs := runs w |}.

Definition with_runs (v : list SwitchRun) (w : World) : World :=
  {| provider := provider w; contracts := contracts w; account := account w;
     chainId := chainId w; toasts := toasts w; loadingStates := loadingStates w;
     lastErrorKey := lastErrorKey w; ethereum := ethereum w;
     listeners := listeners w; requests := requests w; wallet := wallet w;
     clock := clock w; random_tape := random_tape w; random_pos := random_pos w;
     timers := timers w; runs := v |}.

(* ================================================================== *)
(** ** The monad of handlers: state and exceptions *)

Definition M (A : Type) : Type := World -> Result A * World.

Definition ret {A} (a : A) : M A := fun w => (Ok a, w).

Definition bind {A B} (m : M A) (k : A -> M B) : M B :=
  fun w =>
    match m w with
    | (Ok a, w') => k a w'
    | (Throw e, w') => (Throw e, w')
    end.

Definition throw {A} (e : JsError) : M A := fun w => (Throw e, w).

(** [try { body } catch (e) { handler e }]. *)
Definition try_catch {A} (body : M A) (handler : JsError -> M A) : M A :=
  fun w =>
    match body w with
    | (Ok a, w') => (Ok a, w')
    | (Throw e, w') => handler e w'
    end.

(** [try { body } finally { fin }], for a [fin] that does not throw. *)
Definition try_finally {A} (body : M A) (fin : M unit) : M A :=
  fun w =>
    match body w with
    | (r, w') => (r, snd (fin w'))
    end.

(** [await] of a call the wallet answers at once: [f] is the answer of the
    present wallet. *)
Definition ask {A} (f : Wallet -> Result A) : M A := fun w => (f (wallet w), w).

Definition gets {A} (f : World -> A) : M A := fun w => (Ok (f w), w).

Definition modify (f : World -> World) : M unit := fun w => (Ok tt, f w).

Notation "x <- m ;; k" := (bind m (fun x => k))
  (at level 61, m at next level, right associativity).
Notation "m ;; k" := (bind m (fun _ => k))
  (at level 61, right associativity).

(** The world a handler leaves. *)
Definition exec {A} (m : M A) (w : World) : World := snd (m w).

(** *** State setters of React, and the runtime *)

Definition setProvider (v : option Provider) : M unit := modify (with_provider v).
Definition setContracts (v : Contracts) : M unit := modify (with_contracts v).
Definition setAccount (v : string) : M unit := modify (with_account v).
Definition setChainId (v : Z) : M unit := modify (with_chainId (Some v)).
Definition setToasts (f : list Toast -> list Toast) : M unit :=
  modify (fun w => with_toasts (f (toasts w)) w).
Definition setLoadingStates (f : LoadingStates -> LoadingStates) : M unit :=
  modify (fun w => with_loadingStates (f (loadingStates w)) w).

Definition set_ls_contracts (b : bool) (prev : LoadingStates) : LoadingStates :=
  {| ls_provider := ls_provider prev; ls_contracts := b; ls_wallet := ls_wallet prev |}.
Definition set_ls_wallet (b : bool) (prev : LoadingStates) : LoadingStates :=
  {| ls_provider := ls_provider prev; ls_contracts := ls_contracts prev; ls_wallet := b |}.

Definition Date_now : M Z := gets clock.

Definition Math_random : M string :=
  fun w => (Ok (random_tape w (random_pos w)), with_random_pos (S (random_pos w)) w).

Definition setTimeout (a : TimerAction) (delay : Z) : M unit :=
  modify (fun w =>
    with_timers (timers w ++ [{| timer_due := clock w + delay; timer_action := a |}]) w).

Definition TimerAction_eqb (a b : TimerAction) : bool :=
  match a, b with
  | ExpireToast i, ExpireToast j => String.eqb i j
  | RejectSwitch r, RejectSwitch s => Nat.eqb r s
  | _, _ => false
  end.

Definition clearTimeout (a : TimerAction) : M unit :=
  modify (fun w =>
    with_timers (filter (fun t => negb (TimerAction_eqb (timer_action t) a)) (timers w)) w).

Definition Listener_eqb (a b : Listener) : bool :=
  match a, b with
  | AppChainHandler, AppChainHandler => true
  | chainChangeHandler r, chainChangeHandler s => Nat.eqb r s
  | _, _ => false
  end.

(** [window.ethereum.on("chainChanged", l)]. *)
Definition ethereum_on (l : Listener) : M unit :=
  modify (fun w => with_listeners (listeners w ++ [l]) w).

(** [window.ethereum.removeListener("chainChanged", l)]. *)
Definition ethereum_removeListener (l : Listener) : M unit :=
  modify (fun w =>
    with_listeners (filter (fun x => negb (Listener_eqb x l)) (listeners w)) w).

(** [window.ethereum.request(r)]: the call is recorded; its answer comes
    from the wallet. *)
Definition ethereum_request (r : Request) : M unit :=
  modify (fun w => with_requests (requests w ++ [r]) w).

(* ================================================================== *)
(** ** Notification queue (lines 175-199) *)

(** The updater passed to [setToasts] by [addToast]. *)
Definition addToast_update (id message : string) (type : ToastType)
    (prev : list Toast) : list Toast :=
  if existsb (fun toast => String.eqb (toast_message toast) message) prev then prev
  else
    let newToasts :=
      prev ++ [{| toast_id := id; toast_message := message; toast_type := type |}] in
    if (3 <? length newToasts)%nat then slice_last 3 newToasts else newToasts.

(** The updater of [removeToast] and of the expiry timer. *)
Definition removeToast_update (id : string) (prev : list Toast) : list Toast :=
  filter (fun toast => negb (String.eqb (toast_id toast) id)) prev.

Definition addToast (message : string) (type : ToastType) : M unit :=
  now <- Date_now ;;
  rnd <- Math_random ;;
  let id := "toast_" +++ string_of_Z now +++ "_" +++ rnd in
  setToasts (addToast_update id message type) ;;
  setTimeout (ExpireToast id) 5000.

Definition removeToast (id : string) : M unit :=
  setToasts (removeToast_update id).

(* ================================================================== *)
(** ** Error handler (lines 201-239) *)

(** [error.message || "Unknown error"]. *)
Definition message_or_unknown (e : JsError) : string :=
  match err_message e with
  | Some EmptyString | None => "Unknown error"
  | Some m => m
  end.

(** [error.code === n]. *)
Definition code_is (e : JsError) (n : Z) : bool :=
  match err_code e with
  | Some c => Z.eqb c n
  | None => false
  end.

(** [error.message?.includes(sub)]. *)
Definition message_includes (e : JsError) (sub : string) : bool :=
  match err_message e with
  | Some m => includes m sub
  | None => false
  end.

(** The [if]/[else if] chain of [handleError] (lines 212-233):
    [(errorMessage, errorType)]. *)
Definition classify (e : JsError) : string * ToastType :=
  if code_is e 4001 then
    ("Transaction cancelled by user", warning)
  else if code_is e (-32002) then
    ("Please check your wallet - a connection request is pending", warning)
  else if code_is e (-32603) then
    ("Network connection issue. Please check your wallet connection.", error)
  else if message_includes e "insufficient allowance" then
    ("Insufficient token allowance. Please approve tokens first.", error)
  else if message_includes e "insufficient balance" then
    ("Insufficient token balance for this transaction.", error)
  else
    ("Something went wrong. Please try again later.", error).

Definition errorKey_of (e : JsError) (now : Z) : string :=
  message_or_unknown e +++ "_" +++ string_of_Z (now / 1000).

(** [handleError(error, context)]; [None] is the bare [return]. *)
Definition handleError (e : JsError) (context : string) : M (option string) :=
  now <- Date_now ;;
  let errorKey := errorKey_of e now in
  last <- gets lastErrorKey ;;
  match last with
  | Some k =>
      if String.eqb k errorKey then ret None
      else
        modify (with_lastErrorKey (Some errorKey)) ;;
        addToast (fst (classify e)) (snd (classify e)) ;;
        ret (Some (fst (classify e)))
  | None =>
      modify (with_lastErrorKey (Some errorKey)) ;;
      addToast (fst (classify e)) (snd (classify e)) ;;
      ret (Some (fst (classify e)))
  end.

(* ================================================================== *)
(** ** Network validator (lines 241-268) *)

(** [Object.values(NETWORKS).find((n) => n.chainId === id)]. *)
Definition find_network (env : ImportMetaEnv) (id : Z) : option NetworkConfig :=
  find (fun n => Z.eqb (net_chainId n) id) (map snd (NETWORKS env)).

Definition validateNetwork (env : ImportMetaEnv) (p : Provider) : M Z :=
  currentChainId <- ask getNetwork ;;
  setChainId currentChainId ;;
  if negb (supported env currentChainId) then
    throw (Error ("Please switch to a supported network. Connected to chain ID: "
                  +++ string_of_Z currentChainId))
  else
    match find_network env currentChainId with
    | None => throw (Error "Network configuration not found")
    | Some currentNetwork =>
        try_catch
          (ask getBlockNumber ;; ret tt)
          (fun rpcError =>
             throw (Error ("Failed to connect to " +++ net_name currentNetwork))) ;;
        ret currentChainId
    end.

(* ================================================================== *)
(** ** Contract binder (lines 270-323) *)

(** [Object.keys(NETWORKS).find((key) => NETWORKS[key].chainId === id)]
    followed by [NETWORKS[networkKey]]. *)
Definition network_by_key (env : ImportMetaEnv) (id : Z) : option NetworkConfig :=
  match find (fun kv => Z.eqb (net_chainId (snd kv)) id) (NETWORKS env) with
  | Some kv => Some (snd kv)
  | None => None
  end.

(** [SUPPORTED_CHAIN_IDS.join(", ")]. *)
Definition join_ids (ids : list Z) : string :=
  String.concat ", " (map string_of_Z ids).

(** [provider.getSigner(account)]. *)
Definition getSigner (p : Provider) (acct : string) : M Signer :=
  fun w =>
    match getSigner_error (wallet w) with
    | Some e => (Throw e, w)
    | None => (Ok {| signer_account := acct |}, w)
    end.

Definition initializeContracts (env : ImportMetaEnv) (p : Provider) (acct : string)
    : M (option Contracts) :=
  try_catch
    (currentChainId <- ask getNetwork ;;
     match network_by_key env currentChainId with
     | None =>
         throw (Error ("Unsupported network. Connected to chain ID: "
                       +++ string_of_Z currentChainId
                       +++ ". Supported chain IDs: "
                       +++ join_ids (SUPPORTED_CHAIN_IDS env)))
     | Some networkConfig =>
         signer <- getSigner p acct ;;
         let tokenContract :=
           {| contract_target := addr_token (net_contracts networkConfig);
              contract_abi := TokenABI; contract_runner := signer |} in
         let diceContract :=
           {| contract_target := addr_dice (net_contracts networkConfig);
              contract_abi := DiceABI; contract_runner := signer |} in
         setContracts {| token := Some tokenContract; dice := Some diceContract |} ;;
         setLoadingStates (set_ls_contracts false) ;;
         ret (Some {| token := Some tokenContract; dice := Some diceContract |})
     end)
    (fun e =>
       handleError e "initializeContracts" ;;
       setContracts no_contracts ;;
       setLoadingStates (set_ls_contracts false) ;;
       ret None).

(* ================================================================== *)
(** ** Wallet event handlers and logout *)

(** [handleChainChanged(newChainId)] (lines 325-348); the argument is
    [parseInt(newChainId)].  [provider] and [account] are those of the
    render that registered the handler, which the effect of lines 556-578
    keeps current. *)
Definition handleChainChanged (env : ImportMetaEnv) (chainIdNumber : Z) : M unit :=
  prov <- gets provider ;;
  acct <- gets account ;;
  setChainId chainIdNumber ;;
  try_catch
    (if negb (supported env chainIdNumber) then
       setContracts no_contracts ;;
       setProvider None ;;
       addToast "Please switch to a supported network" warning
     else
       match prov, acct with
       | None, _ | _, EmptyString => ret tt
       | Some _, _ =>
           let newProvider := BrowserProvider in
           setProvider (Some newProvider) ;;
           validateNetwork env newProvider ;;
           initializeContracts env newProvider acct ;;
           addToast "Network changed successfully" success
       end)
    (fun e =>
       handleError e "handleChainChanged" ;;
       setContracts no_contracts ;;
       setProvider None).

(** [handleAccountsChanged(accounts)] (lines 558-565). *)
Definition handleAccountsChanged (accounts : list string) : M unit :=
  match accounts with
  | [] =>
      setAccount "" ;;
      addToast "Please connect your wallet" warning
  | a :: _ => setAccount a
  end.

(** [handleLogout()] (lines 580-584). *)
Definition handleLogout : M unit :=
  setAccount "" ;;
  setContracts no_contracts ;;
  addToast "Logged out successfully" success.

(* ================================================================== *)
(** ** Network switch protocol (lines 407-503) and connect (lines 359-405) *)

Definition attempt {A} (m : M A) : M (Result A) :=
  fun w => match m w with (r, w') => (Ok r, w') end.

Fixpoint map_nth {A} (i : nat) (f : A -> A) (l : list A) {struct l} : list A :=
  match l, i with
  | [], _ => []
  | x :: l', O => f x :: l'
  | x :: l', S i' => x :: map_nth i' f l'
  end.

Definition with_run_promise (p : PromiseState) (r : SwitchRun) : SwitchRun :=
  {| run_network := run_network r; run_chainIdHex := run_chainIdHex r;
     run_account := run_account r; run_promise := p;
     run_phase := run_phase r; run_caller := run_caller r |}.

Definition with_run_phase (ph : SwitchPhase) (r : SwitchRun) : SwitchRun :=
  {| run_network := run_network r; run_chainIdHex := run_chainIdHex r;
     run_account := run_account r; run_promise := run_promise r;
     run_phase := ph; run_caller := run_caller r |}.

Definition update_run (i : nat) (f : SwitchRun -> SwitchRun) : M unit :=
  modify (fun w => with_runs (map_nth i f (runs w)) w).

Definition get_run (i : nat) : M (option SwitchRun) :=
  gets (fun w => nth_error (runs w) i).

(** The [finally] and [catch] blocks of [connectWallet]. *)
Definition connectWallet_finally : M unit :=
  setLoadingStates (set_ls_wallet false).

Definition connectWallet_catch (err : JsError) : M unit :=
  handleError err "connectWallet" ;;
  setContracts no_contracts ;;
  setProvider None ;;
  setAccount "".

(** [connectWallet] resumed after [await switchNetwork("mainnet")]: the
    [return] of line 389, or the [catch] block, then [finally]. *)
Definition connectWallet_resumed (r : Result unit) : M unit :=
  match r with
  | Ok _ => connectWallet_finally
  | Throw err => connectWallet_catch err ;; connectWallet_finally
  end.

(** The [finally] block of [switchNetwork]; the run is over and whoever
    awaits it goes on. *)
Definition switchNetwork_settle (i : nat) (caller : Caller) (r : Result unit) : M unit :=
  setLoadingStates (set_ls_wallet false) ;;
  update_run i (with_run_phase (Settled r)) ;;
  match caller with
  | FromButton => ret tt
  | FromConnectWallet => connectWallet_resumed r
  end.

(** The outer [catch] block of [switchNetwork] (lines 483-488). *)
Definition switchNetwork_catch (i : nat) (caller : Caller) (e : JsError) : M unit :=
  handleError e "switchNetwork" ;;
  setContracts no_contracts ;;
  setProvider None ;;
  switchNetwork_settle i caller (Throw e).

(** Lines 474-482, after [await networkSwitchPromise] has returned. *)
Definition switchNetwork_confirmed (env : ImportMetaEnv) (i : nat) (run : SwitchRun)
    : M unit :=
  r <- attempt
         (match run_account run with
          | EmptyString => ret tt
          | acct =>
              let newProvider := BrowserProvider in
              setProvider (Some newProvider) ;;
              validateNetwork env newProvider ;;
              initializeContracts env newProvider acct ;;
              ret tt
          end ;;
          addToast ("Successfully switched to " +++ net_name (run_network run)) success) ;;
  match r with
  | Ok _ => switchNetwork_settle i (run_caller run) (Ok tt)
  | Throw e => switchNetwork_catch i (run_caller run) e
  end.

(** [await networkSwitchPromise] (line 472), and its resumption. *)
Definition await_networkSwitchPromise (env : ImportMetaEnv) (i : nat) : M unit :=
  orun <- get_run i ;;
  match orun with
  | None => ret tt
  | Some run =>
      match run_promise run with
      | Resolved => switchNetwork_confirmed env i run
      | Rejected e => switchNetwork_catch i (run_caller run) e
      | Pending => update_run i (with_run_phase AwaitConfirmation)
      end
  end.

(** [resolve()] and [reject(e)] of [networkSwitchPromise]: a settled
    promise stays as it is. *)
Definition settle_promise (env : ImportMetaEnv) (i : nat) (outcome : PromiseState)
    : M unit :=
  orun <- get_run i ;;
  match orun with
  | None => ret tt
  | Some run =>
      match run_promise run with
      | Pending =>
          update_run i (with_run_promise outcome) ;;
          match run_phase run with
          | AwaitConfirmation => await_networkSwitchPromise env i
          | _ => ret tt
          end
      | _ => ret tt
      end
  end.

(** The listener registered at line 440 (lines 428-438). *)
Definition run_chainChangeHandler (env : ImportMetaEnv) (i : nat) (newChainIdNumber : Z)
    : M unit :=
  orun <- get_run i ;;
  match orun with
  | None => ret tt
  | Some run =>
      if Z.eqb newChainIdNumber (net_chainId (run_network run)) then
        clearTimeout (RejectSwitch i) ;;
        ethereum_removeListener (chainChangeHandler i) ;;
        settle_promise env i Resolved
      else ret tt
  end.

(** The timer callback of line 423. *)
Definition run_switch_timeout (env : ImportMetaEnv) (i : nat) : M unit :=
  settle_promise env i (Rejected (Error "Network switch timeout")).

Definition network_of_type (env : ImportMetaEnv) (networkType : string) : NetworkConfig :=
  if String.eqb networkType "mainnet" then MAINNET env else APOTHEM env.

Definition addChain_params (chainIdHex : string) (network : NetworkConfig)
    : AddChainParams :=
  {| add_chainId := chainIdHex;
     add_chainName := net_name network;
     add_rpcUrls := [net_rpcUrl network];
     add_nativeCurrency := {| nc_name := "XDC"; nc_symbol := "XDC"; nc_decimals := 18 |} |}.

(** [switchNetwork(networkType)] up to its first [await] (line 445).
    [None]: returned at line 409; [Some i]: suspended as run [i]. *)
Definition switchNetwork (env : ImportMetaEnv) (networkType : string) (caller : Caller)
    : M (option nat) :=
  eth <- gets ethereum ;;
  if negb eth then ret None
  else
    let network := network_of_type env networkType in
    let chainIdHex := "0x" +++ toString16 (net_chainId network) in
    acct <- gets account ;;
    i <- gets (fun w => length (runs w)) ;;
    modify (fun w =>
      with_runs (runs w ++ [{| run_network := network; run_chainIdHex := chainIdHex;
                               run_account := acct; run_promise := Pending;
                               run_phase := AwaitSwitchRequest;
                               run_caller := caller |}]) w) ;;
    setLoadingStates (set_ls_wallet true) ;;
    setContracts no_contracts ;;
    setTimeout (RejectSwitch i) 10000 ;;
    ethereum_on (chainChangeHandler i) ;;
    ethereum_request (req_wallet_switchEthereumChain chainIdHex) ;;
    ret (Some i).

(** The wallet answers the request run [i] is awaiting (lines 444-469). *)
Definition request_answered (env : ImportMetaEnv) (i : nat) (r : Result unit) : M unit :=
  orun <- get_run i ;;
  match orun with
  | None => ret tt
  | Some run =>
      match run_phase run, r with
      | AwaitSwitchRequest, Ok _ => await_networkSwitchPromise env i
      | AwaitSwitchRequest, Throw switchError =>
          if code_is switchError 4902 then
            ethereum_request
              (req_wallet_addEthereumChain
                 (addChain_params (run_chainIdHex run) (run_network run))) ;;
            update_run i (with_run_phase AwaitAddRequest)
          else switchNetwork_catch i (run_caller run) switchError
      | AwaitAddRequest, Ok _ => await_networkSwitchPromise env i
      | AwaitAddRequest, Throw e => switchNetwork_catch i (run_caller run) e
      | _, _ => ret tt
      end
  end.

Inductive Progress := Completed | Suspended.

(** The [try] block of [connectWallet] (lines 362-396). *)
Definition connectWallet_try (env : ImportMetaEnv) : M Progress :=
  eth <- gets ethereum ;;
  if negb eth then throw (Error "Please install MetaMask to use this application")
  else
    let currentProvider := BrowserProvider in
    setProvider (Some currentProvider) ;;
    ethereum_request req_eth_requestAccounts ;;
    accounts <- ask eth_requestAccounts ;;
    match accounts with
    | [] => throw (Error "No accounts found")
    | account0 :: _ =>
        currentChainId <- ask getNetwork ;;
        if negb (supported env currentChainId) then
          setContracts no_contracts ;;
          setProvider None ;;
          s <- switchNetwork env "mainnet" FromConnectWallet ;;
          match s with
          | Some _ => ret Suspended
          | None => ret Completed
          end
        else
          validateNetwork env currentProvider ;;
          initializeContracts env currentProvider account0 ;;
          setAccount account0 ;;
          addToast "Wallet connected successfully!" success ;;
          ret Completed
    end.

Definition connectWallet (env : ImportMetaEnv) : M unit :=
  setLoadingStates (set_ls_wallet true) ;;
  r <- attempt (connectWallet_try env) ;;
  match r with
  | Ok Suspended => ret tt
  | Ok Completed => connectWallet_finally
  | Throw err => connectWallet_catch err ;; connectWallet_finally
  end.

(** The mount effect [init] (lines 508-547), with [mounted] true. *)
Definition init (env : ImportMetaEnv) : M unit :=
  let done prev :=
    {| ls_provider := false; ls_contracts := false; ls_wallet := ls_wallet prev |} in
  eth <- gets ethereum ;;
  if negb eth then setLoadingStates done
  else
    try_finally
      (try_catch
         (let newProvider := BrowserProvider in
          setProvider (Some newProvider) ;;
          validateNetwork env newProvider ;;
          ethereum_request req_eth_accounts ;;
          accounts <- ask eth_accounts ;;
          match accounts with
          | [] => ret tt
          | account0 :: _ =>
              initializeContracts env newProvider account0 ;;
              setAccount account0
          end)
         (fun err => handleError err "initialization" ;; ret tt))
      (setLoadingStates done).

(* ================================================================== *)
(** ** The event loop *)

Inductive Event :=
| ClickConnectWallet
| ClickSwitchNetwork (networkType : string)
| ClickLogout
| ClickCloseToast (id : string)
| accountsChanged (accounts : list string)
| chainChanged (newChainIdNumber : Z)
| RequestAnswered (run : nat) (r : Result unit)
| TimerFires (a : TimerAction)
| TimePasses (ms : Z)
| WalletChanges (wl : Wallet).

(** One listener of [chainChanged] is called. *)
Definition call_listener (env : ImportMetaEnv) (newChainIdNumber : Z) (l : Listener)
    : M unit :=
  match l with
  | AppChainHandler => handleChainChanged env newChainIdNumber
  | chainChangeHandler i => run_chainChangeHandler env i newChainIdNumber
  end.

(** The emitter calls the listeners registered when the event is emitted,
    in order. *)
Fixpoint emit (env : ImportMetaEnv) (newChainIdNumber : Z) (ls : list Listener)
    : M unit :=
  match ls with
  | [] => ret tt
  | l :: ls' => call_listener env newChainIdNumber l ;; emit env newChainIdNumber ls'
  end.

Fixpoint remove_first_timer (a : TimerAction) (ts : list Timer) : list Timer :=
  match ts with
  | [] => []
  | t :: ts' =>
      if TimerAction_eqb (timer_action t) a then ts' else t :: remove_first_timer a ts'
  end.

Definition timer_is_due (now : Z) (a : TimerAction) (t : Timer) : bool :=
  TimerAction_eqb (timer_action t) a && Z.leb (timer_due t) now.

Definition run_timer (env : ImportMetaEnv) (a : TimerAction) : M unit :=
  match a with
  | ExpireToast id => setToasts (removeToast_update id)
  | RejectSwitch i => run_switch_timeout env i
  end.

Definition is_empty (s : string) : bool :=
  match s with EmptyString => true | _ => false end.

(** One turn of the event loop.  The connect button is rendered when
    [account] is empty and is disabled while [loadingStates.wallet]; the
    network and logout buttons sit in the account menu, rendered when
    [account] is not empty.  (The two buttons of [NetworkWarning] name a
    [switchNetwork] that is not in scope where the component is defined;
    a click on them changes nothing.)  The wallet's events reach the
    handlers the effect of lines 556-578 registered, when
    [window.ethereum] exists. *)
Definition step (env : ImportMetaEnv) (ev : Event) (w : World) : World :=
  match ev with
  | ClickConnectWallet =>
      if is_empty (account w) && negb (ls_wallet (loadingStates w))
      then exec (connectWallet env) w else w
  | ClickSwitchNetwork networkType =>
      if is_empty (account w) then w
      else exec (switchNetwork env networkType FromButton) w
  | ClickLogout =>
      if is_empty (account w) then w else exec handleLogout w
  | ClickCloseToast id => exec (removeToast id) w
  | accountsChanged accounts =>
      if ethereum w then exec (handleAccountsChanged accounts) w else w
  | chainChanged n => exec (emit env n (listeners w)) w
  | RequestAnswered i r => exec (request_answered env i r) w
  | TimerFires a =>
      if existsb (timer_is_due (clock w) a) (timers w)
      then exec (run_timer env a) (with_timers (remove_first_timer a (timers w)) w)
      else w
  | TimePasses ms => with_clock (clock w + Z.max 0 ms) w
  | WalletChanges wl => with_wallet wl w
  end.

Fixpoint steps (env : ImportMetaEnv) (evs : list Event) (w : World) : World :=
  match evs with
  | [] => w
  | ev :: evs' => steps env evs' (step env ev w)
  end.

(** The world when [App] is first rendered and its effects have
    registered the wallet listeners; [init] has not run yet. *)
Definition initial_world (eth : bool) (wl : Wallet) (now : Z) (tape : nat -> string)
    : World :=
  {| provider := None; contracts := no_contracts; account := ""; chainId := None;
     toasts := [];
     loadingStates := {| ls_provider := true; ls_contracts := true; ls_wallet := false |};
     lastErrorKey := None; ethereum := eth;
     listeners := if eth then [AppChainHandler] else [];
     requests := []; wallet := wl; clock := now;
     random_tape := tape; random_pos := 0; timers := []; runs := [] |}.

Definition mount (env : ImportMetaEnv) (eth : bool) (wl : Wallet) (now : Z)
    (tape : nat -> string) : World :=
  exec (init env) (initial_world eth wl now tape).

(* ================================================================== *)
(** ** A concrete session, for the examples

    The registry of the specification's scenarios: chain 50 with contracts
    0xA and 0xB, chain 51 with 0xC and 0xD; a wallet that has authorised
    account 0x1111. *)

Definition scenario_env : ImportMetaEnv :=
  {| VITE_XDC_MAINNET_RPC := "https://rpc.xinfin.network";
     VITE_TOKEN_ADDRESS := "0xA";
     VITE_DICE_ADDRESS := "0xB";
     VITE_XDC_APOTHEM_RPC := "https://rpc.apothem.network";
     VITE_APOTHEM_TOKEN_ADDRESS := "0xC";
     VITE_APOTHEM_DICE_ADDRESS := "0xD" |}.

(** A wallet on chain [c] whose endpoint answers. *)
Definition scenario_wallet (c : Z) : Wallet :=
  {| getNetwork := Ok c;
     getBlockNumber := Ok 4242;
     getSigner_error := None;
     eth_requestAccounts := Ok ["0x1111"];
     eth_accounts := Ok ["0x1111"] |}.

Definition scenario_tape (n : nat) : string := "r" +++ string_of_Z (Z.of_nat n).

(** The page loaded with the wallet on chain 51: connected and bound. *)
Definition connected_world : World :=
  mount scenario_env true (scenario_wallet 51) 1700000000000 scenario_tape.

(** The page loaded with the wallet on chain 7, which is not supported. *)
Definition unsupported_world : World :=
  mount scenario_env true (scenario_wallet 7) 1700000000000 scenario_tape.

Definition unknown_chain_error : JsError :=
  {| err_code := Some 4902; err_message := Some "Unrecognized chain ID" |}.



(* ================================================================== *)
(** ** Notions used in the statements *)

(** [keeps P m]: the handler [m] leaves a world in [P] whenever it starts
    in one, whether it returns or throws. *)
Definition keeps {A} (P : World -> Prop) (m : M A) : Prop :=
  forall w, P w -> P (snd (m w)).

(** [prev.some((toast) => toast.message === message)], and queues whose
    messages are pairwise different. *)
Definition has_message (message : string) (q : list Toast) : bool :=
  existsb (fun toast => String.eqb (toast_message toast) message) q.


(** A session whose queue is full: logged out, then told by the wallet
    that no account is left, then moved to chain 7. *)
Definition full_queue_world : World :=
  steps scenario_env [ClickLogout; accountsChanged []; chainChanged 7] connected_world.

(** The phase of run [i]. *)
Definition phase_of (i : nat) (w : World) : option SwitchPhase :=
  option_map run_phase (nth_error (runs w) i).

(** The run [switchNetwork] starts. *)
Definition new_run (env : ImportMetaEnv) (networkType : string) (caller : Caller)
    (w : World) : SwitchRun :=
  {| run_network := network_of_type env networkType;
     run_chainIdHex := "0x" +++ toString16 (net_chainId (network_of_type env networkType));
     run_account := account w;
     run_promise := Pending;
     run_phase := AwaitSwitchRequest;
     run_caller := caller |}.

Definition settled (r : SwitchRun) : Prop := exists res, run_phase r = Settled res.

(** A run that cannot bind contracts any more: it captured an empty
    account, or it is over. *)
Definition run_quiet (r : SwitchRun) : Prop := run_account r = "" \/ settled r.

Definition disconnected (w : World) : Prop :=
  account w = "" /\ contracts w = no_contracts /\ Forall run_quiet (runs w).

(** Events other than a click on the connect button and an
    account-changed event of the wallet. *)
Definition no_reconnect (ev : Event) : Prop :=
  match ev with
  | ClickConnectWallet | accountsChanged _ => False
  | _ => True
  end.

(* ================================================================== *)
(** ** What the page shows of the session (lines 586-639) *)

(** [chainId && !SUPPORTED_CHAIN_IDS.includes(chainId)] (line 589): the
    condition under which [NetworkWarning] is rendered.  [null] and [0]
    are falsy. *)
Definition shows_NetworkWarning (env : ImportMetaEnv) (w : World) : bool :=
  match chainId w with
  | None => false
  | Some id => negb (Z.eqb id 0) && negb (supported env id)
  end.

(** The network name in the header (lines 624-628). *)
Definition network_label (id : Z) : string :=
  if Z.eqb id 50 then "XDC Mainnet"
  else if Z.eqb id 51 then "Apothem Testnet"
  else "Unsupported Network".

(* ================================================================== *)
(** ** Further notions used in the statements *)

(** [hoare Pre m Post Exc]: started in [Pre], the handler [m] ends in
    [Post] when it returns and in [Exc] when it throws. *)
Definition hoare {A} (Pre : World -> Prop) (m : M A)
    (Post : A -> World -> Prop) (Exc : World -> Prop) : Prop :=
  forall w, Pre w ->
    match m w with
    | (Ok a, w') => Post a w'
    | (Throw _, w') => Exc w'
    end.

(** [m] returns, whatever the world. *)
Definition nothrow {A} (m : M A) : Prop := forall w, exists a, fst (m w) = Ok a.

(** [P] does not depend on the queue, the error key, the random tape, the
    timers, the loading flags, the runs, the listeners, the requests sent
    or the account. *)
Record Framed (P : World -> Prop) : Prop := {
  fr_toasts : forall v w, P w -> P (with_toasts v w);
  fr_lastErrorKey : forall v w, P w -> P (with_lastErrorKey v w);
  fr_random_pos : forall v w, P w -> P (with_random_pos v w);
  fr_timers : forall v w, P w -> P (with_timers v w);
  fr_loadingStates : forall v w, P w -> P (with_loadingStates v w);
  fr_runs : forall v w, P w -> P (with_runs v w);
  fr_listeners : forall v w, P w -> P (with_listeners v w);
  fr_requests : forall v w, P w -> P (with_requests v w);
  fr_account : forall v w, P w -> P (with_account v w)
}.

(** No contract is bound. *)
Definition unbound (w : World) : Prop := contracts w = no_contracts.

(** The session has a provider, and its stored chain id is the supported
    one the wallet reports. *)
Definition validated (env : ImportMetaEnv) (w : World) : Prop :=
  provider w <> None
  /\ exists id, getNetwork (wallet w) = Ok id /\ chainId w = Some id
                /\ supported env id = true.

(** The two handles [initializeContracts] builds for network [n] and
    account [a] (lines 296-306). *)
Definition bound_contracts (n : NetworkConfig) (a : string) : Contracts :=
  {| token := Some {| contract_target := addr_token (net_contracts n);
                      contract_abi := TokenABI;
                      contract_runner := {| signer_account := a |} |};
     dice := Some {| contract_target := addr_dice (net_contracts n);
                     contract_abi := DiceABI;
                     contract_runner := {| signer_account := a |} |} |}.

(** No handle is bound, or both are, for one network of the registry and
    one account, with a provider at hand and a supported chain id stored. *)
Definition consistent (env : ImportMetaEnv) (w : World) : Prop :=
  contracts w = no_contracts
  \/ (provider w <> None
      /\ (exists id, chainId w = Some id /\ supported env id = true)
      /\ exists n a, In n (map snd (NETWORKS env))
                     /\ contracts w = bound_contracts n a).

(** The wallet reports chain [id], its endpoint answers, and it hands out
    signers. *)
Definition healthy_on (id : Z) (wl : Wallet) : Prop :=
  getNetwork wl = Ok id
  /\ (exists b, getBlockNumber wl = Ok b)
  /\ getSigner_error wl = None.

(** The error of [validateNetwork] for an unsupported chain (lines 248-250). *)
Definition unsupported_error (id : Z) : JsError :=
  Error ("Please switch to a supported network. Connected to chain ID: "
         +++ string_of_Z id).

(** The error of [initializeContracts] for an unsupported chain (lines 286-290). *)
Definition unsupported_binding_error (env : ImportMetaEnv) (id : Z) : JsError :=
  Error ("Unsupported network. Connected to chain ID: " +++ string_of_Z id
         +++ ". Supported chain IDs: " +++ join_ids (SUPPORTED_CHAIN_IDS env)).

(** A pending timer with action [a]. *)
Definition has_timer (a : TimerAction) (w : World) : bool :=
  existsb (fun t => TimerAction_eqb (timer_action t) a) (timers w).

(** A registered listener [l]. *)
Definition has_listener (l : Listener) (w : World) : bool :=
  existsb (fun x => Listener_eqb x l) (listeners w).

(** Why [initializeContracts] cannot bind in the present wallet, if it
    cannot: the provider does not tell its chain, the chain is not in
    [NETWORKS], or no signer is handed out. *)
Definition binding_failure (env : ImportMetaEnv) (wl : Wallet) : option JsError :=
  match getNetwork wl with
  | Throw e => Some e
  | Ok id =>
      match network_by_key env id with
      | None => Some (unsupported_binding_error env id)
      | Some _ => getSigner_error wl
      end
  end.

(** The error [connectWallet] ends on, if it ends on one before binding:
    no wallet, the account request is refused or grants nothing, the
    provider does not tell its chain, or the chain is supported and its
    endpoint does not answer.  [None] on an unsupported chain, where
    [connectWallet] hands over to [switchNetwork]. *)
Definition connect_failure (env : ImportMetaEnv) (w : World) : option JsError :=
  if negb (ethereum w) then
    Some (Error "Please install MetaMask to use this application")
  else
    match eth_requestAccounts (wallet w) with
    | Throw e => Some e
    | Ok [] => Some (Error "No accounts found")
    | Ok (_ :: _) =>
        match getNetwork (wallet w) with
        | Throw e => Some e
        | Ok id =>
            match find_network env id, getBlockNumber (wallet w) with
            | Some n, Throw _ => Some (Error ("Failed to connect to " +++ net_name n))
            | _, _ => None
            end
        end
    end.

(** Events after which the wallet may have been sent a request: the two
    clicks that start a flow, and the answer to a switch-chain request,
    which can be followed by a register-chain request. *)
Definition may_request (ev : Event) : bool :=
  match ev with
  | ClickConnectWallet | ClickSwitchNetwork _ | RequestAnswered _ _ => true
  | _ => false
  end.

(* ================================================================== *)
(** * Properties *)

(** ** Error classifier *)

Lemma code_is_spec (e : JsError) (n : Z) :
  code_is e n = true <-> err_code e = Some n.
Proof.
  unfold code_is. destruct (err_code e) as [c|].
  - rewrite Z.eqb_eq. split; [intros -> | intros [= ->]]; reflexivity.
  - split; discriminate.
Qed.

(** C9, as stated, fails: for code -32002 the handler's text is not the
    one of the specification's table, and neither is the text for code
    -32603. *)
Lemma classify_pending_request_text :
  classify {| err_code := Some (-32002); err_message := None |}
    <> ("A connection request is already pending", warning)
  /\ classify {| err_code := Some (-32603); err_message := None |}
    <> ("Network connection issue", error).
Proof. split; vm_compute; discriminate. Qed.

(** C9, amended: the classification of [handleError] is a function of the
    error's code and message alone, with the texts of the source: code
    4001, then -32002, then -32603 decide first; otherwise a message that
    contains "insufficient allowance", then one that contains
    "insufficient balance"; every other error gets the generic text. *)
Theorem classify_table (e : JsError) :
  (err_code e = Some 4001 ->
     classify e = ("Transaction cancelled by user", warning))
  /\ (err_code e = Some (-32002) ->
     classify e =
       ("Please check your wallet - a connection request is pending", warning))
  /\ (err_code e = Some (-32603) ->
     classify e =
       ("Network connection issue. Please check your wallet connection.", error))
  /\ (code_is e 4001 = false -> code_is e (-32002) = false ->
      code_is e (-32603) = false ->
      (message_includes e "insufficient allowance" = true ->
         classify e =
           ("Insufficient token allowance. Please approve tokens first.", error))
      /\ (message_includes e "insufficient allowance" = false ->
          message_includes e "insufficient balance" = true ->
         classify e = ("Insufficient token balance for this transaction.", error))
      /\ (message_includes e "insufficient allowance" = false ->
          message_includes e "insufficient balance" = false ->
         classify e = ("Something went wrong. Please try again later.", error))).
Proof.
  unfold classify. split; [| split; [| split; [| intros -> -> ->; split; [| split]]]].
  - intros H. unfold code_is. now rewrite H.
  - intros H. unfold code_is. now rewrite H.
  - intros H. unfold code_is. now rewrite H.
  - intros ->. reflexivity.
  - intros -> ->. reflexivity.
  - intros -> ->. reflexivity.
Qed.

Lemma classify_table_witness :
  classify {| err_code := Some 4001; err_message := Some "User denied" |}
    = ("Transaction cancelled by user", warning)
  /\ classify (Error "ERC20: insufficient allowance")
    = ("Insufficient token allowance. Please approve tokens first.", error)
  /\ classify (Error "execution reverted: insufficient balance")
    = ("Insufficient token balance for this transaction.", error)
  /\ classify (Error "timeout")
    = ("Something went wrong. Please try again later.", error).
Proof.
  split; [| split; [| split]].
  - apply (classify_table
             {| err_code := Some 4001; err_message := Some "User denied" |}).
    reflexivity.
  - apply (classify_table (Error "ERC20: insufficient allowance"));
      reflexivity.
  - apply (classify_table (Error "execution reverted: insufficient balance"));
      reflexivity.
  - apply (classify_table (Error "timeout")); reflexivity.
Defined.

(* ------------------------------------------------------------------ *)
(** ** Network validator *)

Lemma validateNetwork_eq (env : ImportMetaEnv) (p : Provider) (w : World) (id : Z) :
  getNetwork (wallet w) = Ok id ->
  exec (validateNetwork env p) w = with_chainId (Some id) w.
Proof.
  intros H. unfold exec, validateNetwork, bind, ask, setChainId, modify. rewrite H.
  simpl. destruct (supported env id); simpl; [| reflexivity].
  destruct (find_network env id); simpl; [| reflexivity].
  unfold try_catch, bind, ask, throw, ret. simpl.
  destruct (getBlockNumber (wallet w)); reflexivity.
Qed.

(** C2, as stated, fails: with the wallet on chain 7 validation throws,
    and the stored chain id has changed from 51 to 7. *)
Lemma validateNetwork_failure_updates_chainId :
  let w := with_wallet (scenario_wallet 7) connected_world in
  fst (validateNetwork scenario_env BrowserProvider w)
    = Throw (Error "Please switch to a supported network. Connected to chain ID: 7")
  /\ chainId w = Some 51
  /\ chainId (exec (validateNetwork scenario_env BrowserProvider) w) = Some 7.
Proof. vm_compute. repeat split. Qed.

(** C2, amended: [validateNetwork] stores the chain id as soon as the
    provider has reported it, before any check.  When [getNetwork] answers
    [id], the world it leaves is the one it got with [chainId] set to
    [id], whether it then returns [id] or throws; only when [getNetwork]
    itself fails is the world, and so [chainId], left as it was. *)
Theorem validateNetwork_chainId (env : ImportMetaEnv) (p : Provider) (w : World) :
  (forall id, getNetwork (wallet w) = Ok id ->
     exec (validateNetwork env p) w = with_chainId (Some id) w
     /\ chainId (exec (validateNetwork env p) w) = Some id
     /\ (fst (validateNetwork env p w) = Ok id
         \/ exists e, fst (validateNetwork env p w) = Throw e))
  /\ (forall e, getNetwork (wallet w) = Throw e ->
       validateNetwork env p w = (Throw e, w)).
Proof.
  split.
  - intros id H. split; [now apply validateNetwork_eq |].
    split; [now rewrite (validateNetwork_eq env p w id H) |].
    unfold validateNetwork, bind, ask, setChainId, modify. rewrite H. simpl.
    destruct (supported env id); simpl; [| right; eauto].
    destruct (find_network env id); simpl; [| right; eauto].
    unfold try_catch, bind, ask, throw, ret. simpl.
    destruct (getBlockNumber (wallet w)); simpl; [left; reflexivity | right; eauto].
  - intros e H. unfold validateNetwork, bind, ask. rewrite H. reflexivity.
Qed.

(** The wallet on chain 7, on chain 50 with a dead endpoint, and a wallet
    that cannot tell its chain. *)
Lemma validateNetwork_chainId_witness :
  chainId (exec (validateNetwork scenario_env BrowserProvider)
             (with_wallet (scenario_wallet 7) connected_world)) = Some 7
  /\ chainId (exec (validateNetwork scenario_env BrowserProvider)
                (with_wallet
                   {| getNetwork := Ok 50;
                      getBlockNumber := Throw (Error "could not detect network");
                      getSigner_error := None;
                      eth_requestAccounts := Ok ["0x1111"];
                      eth_accounts := Ok ["0x1111"] |} connected_world)) = Some 50
  /\ chainId (exec (validateNetwork scenario_env BrowserProvider)
                (with_wallet
                   {| getNetwork := Throw (Error "could not detect network");
                      getBlockNumber := Ok 4242;
                      getSigner_error := None;
                      eth_requestAccounts := Ok ["0x1111"];
                      eth_accounts := Ok ["0x1111"] |} connected_world)) = Some 51.
Proof.
  split; [| split].
  - apply (validateNetwork_chainId scenario_env BrowserProvider
             (with_wallet (scenario_wallet 7) connected_world)).
    reflexivity.
  - apply (validateNetwork_chainId scenario_env BrowserProvider
             (with_wallet
                {| getNetwork := Ok 50;
                   getBlockNumber := Throw (Error "could not detect network");
                   getSigner_error := None;
                   eth_requestAccounts := Ok ["0x1111"];
                   eth_accounts := Ok ["0x1111"] |} connected_world)).
    reflexivity.
  - unfold exec.
    rewrite (proj2 (validateNetwork_chainId scenario_env BrowserProvider
                      (with_wallet
                         {| getNetwork := Throw (Error "could not detect network");
                            getBlockNumber := Ok 4242;
                            getSigner_error := None;
                            eth_requestAccounts := Ok ["0x1111"];
                            eth_accounts := Ok ["0x1111"] |} connected_world))
               (Error "could not detect network") eq_refl).
    vm_compute. reflexivity.
Defined.

(* ------------------------------------------------------------------ *)
(** ** Invariants of handlers *)

Section Keeps.
Variable P : World -> Prop.

Lemma keeps_ret {A} (a : A) : keeps P (ret a).
Proof. intros w H. exact H. Qed.

Lemma keeps_throw {A} (e : JsError) : keeps P (@throw A e).
Proof. intros w H. exact H. Qed.

Lemma keeps_gets {A} (f : World -> A) : keeps P (gets f).
Proof. intros w H. exact H. Qed.

Lemma keeps_ask {A} (f : Wallet -> Result A) : keeps P (ask f).
Proof. intros w H. exact H. Qed.

Lemma keeps_modify (f : World -> World) :
  (forall w, P w -> P (f w)) -> keeps P (modify f).
Proof. intros Hf w H. apply Hf, H. Qed.

Lemma keeps_bind {A B} (m : M A) (k : A -> M B) :
  keeps P m -> (forall a, keeps P (k a)) -> keeps P (bind m k).
Proof.
  intros Hm Hk w H. unfold bind. specialize (Hm w H).
  destruct (m w) as [[a|e] w']; simpl in *; [apply Hk, Hm | exact Hm].
Qed.

Lemma keeps_try_catch {A} (body : M A) (handler : JsError -> M A) :
  keeps P body -> (forall e, keeps P (handler e)) -> keeps P (try_catch body handler).
Proof.
  intros Hb Hh w H. unfold try_catch. specialize (Hb w H).
  destruct (body w) as [[a|e] w']; simpl in *; [exact Hb | apply Hh, Hb].
Qed.

Lemma keeps_try_finally {A} (body : M A) (fin : M unit) :
  keeps P body -> keeps P fin -> keeps P (try_finally body fin).
Proof.
  intros Hb Hf w H. unfold try_finally. specialize (Hb w H).
  destruct (body w) as [r w']; simpl in *. apply Hf, Hb.
Qed.

Lemma keeps_attempt {A} (m : M A) : keeps P m -> keeps P (attempt m).
Proof.
  intros Hm w H. unfold attempt. specialize (Hm w H).
  destruct (m w) as [r w']; exact Hm.
Qed.

(** A read whose value is known to satisfy [R] in the worlds of [P]. *)
Lemma keeps_bind_gets {A B} (f : World -> A) (R : A -> Prop) (k : A -> M B) :
  (forall w, P w -> R (f w)) ->
  (forall a, R a -> keeps P (k a)) ->
  keeps P (bind (gets f) k).
Proof. intros HR Hk w HP. exact (Hk (f w) (HR w HP) w HP). Qed.

Lemma keeps_exec {A} (m : M A) (w : World) : keeps P m -> P w -> P (exec m w).
Proof. intros Hm H. apply Hm, H. Qed.
End Keeps.

Create HintDb keeps.

#[export] Hint Resolve keeps_ret keeps_throw keeps_gets keeps_ask : keeps.

(** Breaks a handler into its statements. *)
Ltac keeps_split :=
  repeat first
    [ solve [ auto with keeps ]
    | apply keeps_bind; [ | intro ]
    | apply keeps_try_catch; [ | intro ]
    | apply keeps_try_finally
    | apply keeps_attempt
    | match goal with
      | |- keeps _ (match ?x with _ => _ end) => destruct x
      end ].

(* ------------------------------------------------------------------ *)
(** ** The handlers reach the queue through its two updaters only *)

Section ToastQueue.
Variable Q : list Toast -> Prop.
Hypothesis Q_add :
  forall id message type q, Q q -> Q (addToast_update id message type q).
Hypothesis Q_remove : forall id q, Q q -> Q (removeToast_update id q).

Let P : World -> Prop := fun w => Q (toasts w).

Local Ltac field := apply keeps_modify; intros w H; exact H.

Lemma queue_setProvider v : keeps P (setProvider v).
Proof. field. Qed.
Lemma queue_setContracts v : keeps P (setContracts v).
Proof. field. Qed.
Lemma queue_setAccount v : keeps P (setAccount v).
Proof. field. Qed.
Lemma queue_setChainId v : keeps P (setChainId v).
Proof. field. Qed.
Lemma queue_setLoadingStates f : keeps P (setLoadingStates f).
Proof. field. Qed.
Lemma queue_lastErrorKey v : keeps P (modify (with_lastErrorKey v)).
Proof. field. Qed.
Lemma queue_Date_now : keeps P Date_now.
Proof. apply keeps_gets. Qed.
Lemma queue_Math_random : keeps P Math_random.
Proof. intros w H. exact H. Qed.
Lemma queue_setTimeout a d : keeps P (setTimeout a d).
Proof. field. Qed.
Lemma queue_clearTimeout a : keeps P (clearTimeout a).
Proof. field. Qed.
Lemma queue_ethereum_on l : keeps P (ethereum_on l).
Proof. field. Qed.
Lemma queue_ethereum_removeListener l : keeps P (ethereum_removeListener l).
Proof. field. Qed.
Lemma queue_ethereum_request r : keeps P (ethereum_request r).
Proof. field. Qed.
Lemma queue_update_run i f : keeps P (update_run i f).
Proof. field. Qed.
Lemma queue_get_run i : keeps P (get_run i).
Proof. apply keeps_gets. Qed.
Lemma queue_getSigner p a : keeps P (getSigner p a).
Proof. intros w H. unfold getSigner. destruct (getSigner_error (wallet w)); exact H. Qed.

Lemma queue_setToasts_add id message type :
  keeps P (setToasts (addToast_update id message type)).
Proof. apply keeps_modify. intros w H. apply Q_add, H. Qed.

Lemma queue_setToasts_remove id : keeps P (setToasts (removeToast_update id)).
Proof. apply keeps_modify. intros w H. apply Q_remove, H. Qed.

Hint Resolve queue_setProvider queue_setContracts queue_setAccount
  queue_setChainId queue_setLoadingStates queue_lastErrorKey queue_Date_now
  queue_Math_random queue_setTimeout queue_clearTimeout queue_ethereum_on
  queue_ethereum_removeListener queue_ethereum_request queue_update_run
  queue_get_run queue_getSigner queue_setToasts_add queue_setToasts_remove
  : keeps.

Lemma queue_addToast message type : keeps P (addToast message type).
Proof. unfold addToast. keeps_split. Qed.
Hint Resolve queue_addToast : keeps.

Lemma queue_removeToast id : keeps P (removeToast id).
Proof. unfold removeToast. keeps_split. Qed.
Hint Resolve queue_removeToast : keeps.

Lemma queue_handleError e context : keeps P (handleError e context).
Proof. unfold handleError. keeps_split. Qed.
Hint Resolve queue_handleError : keeps.

Lemma queue_validateNetwork env p : keeps P (validateNetwork env p).
Proof. unfold validateNetwork. keeps_split. Qed.
Hint Resolve queue_validateNetwork : keeps.

Lemma queue_initializeContracts env p a : keeps P (initializeContracts env p a).
Proof. unfold initializeContracts. keeps_split. Qed.
Hint Resolve queue_initializeContracts : keeps.

Lemma queue_handleChainChanged env n : keeps P (handleChainChanged env n).
Proof. unfold handleChainChanged. keeps_split. Qed.

Lemma queue_handleAccountsChanged accounts : keeps P (handleAccountsChanged accounts).
Proof. unfold handleAccountsChanged. keeps_split. Qed.

Lemma queue_handleLogout : keeps P handleLogout.
Proof. unfold handleLogout. keeps_split. Qed.

Lemma queue_connectWallet_resumed r : keeps P (connectWallet_resumed r).
Proof.
  unfold connectWallet_resumed, connectWallet_catch, connectWallet_finally.
  keeps_split.
Qed.
Hint Resolve queue_connectWallet_resumed : keeps.

Lemma queue_switchNetwork_settle i caller r : keeps P (switchNetwork_settle i caller r).
Proof. unfold switchNetwork_settle. keeps_split. Qed.
Hint Resolve queue_switchNetwork_settle : keeps.

Lemma queue_switchNetwork_catch i caller e : keeps P (switchNetwork_catch i caller e).
Proof. unfold switchNetwork_catch. keeps_split. Qed.
Hint Resolve queue_switchNetwork_catch : keeps.

Lemma queue_switchNetwork_confirmed env i run :
  keeps P (switchNetwork_confirmed env i run).
Proof. unfold switchNetwork_confirmed. keeps_split. Qed.
Hint Resolve queue_switchNetwork_confirmed : keeps.

Lemma queue_await_networkSwitchPromise env i :
  keeps P (await_networkSwitchPromise env i).
Proof. unfold await_networkSwitchPromise. keeps_split. Qed.
Hint Resolve queue_await_networkSwitchPromise : keeps.

Lemma queue_settle_promise env i outcome : keeps P (settle_promise env i outcome).
Proof. unfold settle_promise. keeps_split. Qed.
Hint Resolve queue_settle_promise : keeps.

Lemma queue_run_chainChangeHandler env i n : keeps P (run_chainChangeHandler env i n).
Proof. unfold run_chainChangeHandler. keeps_split. Qed.

Lemma queue_switchNetwork env networkType caller :
  keeps P (switchNetwork env networkType caller).
Proof.
  unfold switchNetwork. keeps_split.
Qed.
Hint Resolve queue_switchNetwork : keeps.

Lemma queue_request_answered env i r : keeps P (request_answered env i r).
Proof. unfold request_answered. keeps_split. Qed.

Lemma queue_connectWallet env : keeps P (connectWallet env).
Proof.
  unfold connectWallet, connectWallet_try, connectWallet_catch, connectWallet_finally.
  keeps_split.
Qed.

Lemma queue_init env : keeps P (init env).
Proof. unfold init. keeps_split. Qed.

Lemma queue_emit env n ls : keeps P (emit env n ls).
Proof.
  induction ls as [|l ls IH]; simpl; [apply keeps_ret |].
  apply keeps_bind; [| intro; exact IH].
  destruct l; simpl;
    [apply queue_handleChainChanged | apply queue_run_chainChangeHandler].
Qed.

Lemma queue_run_timer env a : keeps P (run_timer env a).
Proof. destruct a; simpl; [| unfold run_switch_timeout]; keeps_split. Qed.

Lemma queue_step env ev w : Q (toasts w) -> Q (toasts (step env ev w)).
Proof.
  intros H. change (P (step env ev w)). destruct ev; simpl.
  - destruct (_ && _); [apply keeps_exec; [apply queue_connectWallet |] |]; exact H.
  - destruct (is_empty _); [| apply keeps_exec; [apply queue_switchNetwork |]]; exact H.
  - destruct (is_empty _); [| apply keeps_exec; [apply queue_handleLogout |]]; exact H.
  - apply keeps_exec; [apply queue_removeToast | exact H].
  - destruct (ethereum w);
      [apply keeps_exec; [apply queue_handleAccountsChanged |] |]; exact H.
  - apply keeps_exec; [apply queue_emit | exact H].
  - apply keeps_exec; [apply queue_request_answered | exact H].
  - destruct (existsb _ _); [| exact H].
    apply keeps_exec; [apply queue_run_timer | exact H].
  - exact H.
  - exact H.
Qed.

Lemma queue_steps env evs w : Q (toasts w) -> Q (toasts (steps env evs w)).
Proof.
  revert w. induction evs as [|ev evs IH]; intros w H; simpl; [exact H |].
  apply IH, queue_step, H.
Qed.

Lemma queue_mount env eth wl now tape :
  Q [] -> Q (toasts (mount env eth wl now tape)).
Proof.
  intros H. unfold mount. apply (keeps_exec P); [apply queue_init | exact H].
Qed.
End ToastQueue.

(* ------------------------------------------------------------------ *)
(** ** Notification queue *)


Lemma slice_last_length {A} (n : nat) (l : list A) :
  length (slice_last n l) = Nat.min n (length l).
Proof. unfold slice_last. rewrite length_skipn. lia. Qed.

Lemma slice_last_snoc {A} (n : nat) (l : list A) (x : A) :
  slice_last (S n) (l ++ [x]) = slice_last n l ++ [x].
Proof.
  unfold slice_last. rewrite skipn_app, length_app. simpl.
  replace (length l + 1 - S n)%nat with (length l - n)%nat by lia.
  replace (length l - n - length l)%nat with 0%nat by lia.
  reflexivity.
Qed.

Lemma addToast_update_present id message type q :
  has_message message q = true -> addToast_update id message type q = q.
Proof. unfold addToast_update, has_message. intros ->. reflexivity. Qed.

Lemma addToast_update_absent id message type q :
  has_message message q = false ->
  addToast_update id message type q =
    slice_last 2 q
      ++ [{| toast_id := id; toast_message := message; toast_type := type |}].
Proof.
  unfold addToast_update, has_message. intros ->.
  destruct (3 <? _)%nat eqn:E.
  - apply slice_last_snoc.
  - apply Nat.ltb_ge in E. rewrite length_app in E. simpl in E.
    unfold slice_last. replace (length q - 2)%nat with 0%nat by lia. reflexivity.
Qed.

Lemma addToast_update_length id message type q :
  (length q <= 3)%nat -> (length (addToast_update id message type q) <= 3)%nat.
Proof.
  intros H. destruct (has_message message q) eqn:E.
  - now rewrite addToast_update_present.
  - rewrite addToast_update_absent by exact E.
    rewrite length_app, slice_last_length. cbn [length]. lia.
Qed.

Lemma removeToast_update_length id q :
  (length q <= 3)%nat -> (length (removeToast_update id q) <= 3)%nat.
Proof.
  intros H. unfold removeToast_update.
  eapply Nat.le_trans; [apply filter_length_le | exact H].
Qed.

(** C7: the queue of a session never holds more than 3 toasts, whatever
    events it has gone through; and an [addToast] of a new message on a
    queue that already holds 3 (or more) leaves exactly 3: the 2 newest of
    the old entries followed by the new one, so the oldest are evicted. *)
Theorem toast_queue_cap :
  (forall env eth wl now tape evs,
     (length (toasts (steps env evs (mount env eth wl now tape))) <= 3)%nat)
  /\ (forall w message type,
        has_message message (toasts w) = false ->
        (3 <= length (toasts w))%nat ->
        toasts (exec (addToast message type) w) =
          slice_last 2 (toasts w)
            ++ [{| toast_id := "toast_" +++ string_of_Z (clock w) +++ "_"
                                +++ random_tape w (random_pos w);
                   toast_message := message; toast_type := type |}]
        /\ length (toasts (exec (addToast message type) w)) = 3%nat).
Proof.
  split.
  - intros env eth wl now tape evs.
    apply (queue_steps (fun q => (length q <= 3)%nat)).
    + intros. now apply addToast_update_length.
    + intros. now apply removeToast_update_length.
    + apply (queue_mount (fun q => (length q <= 3)%nat)).
      * intros. now apply addToast_update_length.
      * simpl. lia.
  - intros w message type Habs Hlen.
    assert (E : toasts (exec (addToast message type) w) =
                addToast_update
                  ("toast_" +++ string_of_Z (clock w) +++ "_"
                   +++ random_tape w (random_pos w))
                  message type (toasts w)) by reflexivity.
    rewrite E, addToast_update_absent by exact Habs.
    split; [reflexivity |].
    rewrite length_app, slice_last_length. cbn [length]. lia.
Qed.

Lemma toast_queue_cap_witness :
  map toast_message (toasts full_queue_world)
    = ["Logged out successfully"; "Please connect your wallet";
       "Please switch to a supported network"]
  /\ map toast_message
       (toasts (exec (addToast "Wallet connected successfully!" success)
                  full_queue_world))
    = ["Please connect your wallet"; "Please switch to a supported network";
       "Wallet connected successfully!"].
Proof.
  split; [vm_compute; reflexivity |].
  destruct toast_queue_cap as [_ H].
  destruct (H full_queue_world "Wallet connected successfully!" success) as [E _].
  - vm_compute. reflexivity.
  - vm_compute. lia.
  - rewrite E. vm_compute. reflexivity.
Defined.












Lemma handleError_repeat (e : JsError) (context : string) (w : World) :
  lastErrorKey w = Some (errorKey_of e (clock w)) ->
  handleError e context w = (Ok None, w).
Proof.
  intros H. unfold handleError, bind, Date_now, gets. simpl. rewrite H.
  now rewrite String.eqb_refl.
Qed.



(* ------------------------------------------------------------------ *)
(** ** Account-changed events *)

Lemma handleAccountsChanged_frame (accounts : list string) (w : World) :
  contracts (exec (handleAccountsChanged accounts) w) = contracts w
  /\ provider (exec (handleAccountsChanged accounts) w) = provider w
  /\ chainId (exec (handleAccountsChanged accounts) w) = chainId w
  /\ requests (exec (handleAccountsChanged accounts) w) = requests w.
Proof. destruct accounts; repeat split. Qed.

(** C1, on the code: the session is connected as 0x1111 on chain 51 with
    both contracts bound; the wallet then reports that no account is left.
    The handler empties [account] and leaves the contracts bound, where
    [handleLogout], which empties [account] too, clears them. *)
Theorem accountsChanged_empty_keeps_contracts :
  let w := step scenario_env (accountsChanged []) connected_world in
  account connected_world = "0x1111"
  /\ account w = ""
  /\ contracts w = contracts connected_world
  /\ token (contracts w)
     = Some {| contract_target := "0xC"; contract_abi := TokenABI;
               contract_runner := {| signer_account := "0x1111" |} |}
  /\ contracts (step scenario_env ClickLogout connected_world) = no_contracts.
Proof. vm_compute. repeat split. Qed.

(** C6, on the code: the session is connected as 0x1111 on chain 51; the
    wallet then reports account 0x2222.  The handler stores the new
    account and sends no request to the wallet, but binds nothing: both
    contracts keep the signer of 0x1111. *)
Theorem accountsChanged_keeps_old_signer :
  let w := step scenario_env (accountsChanged ["0x2222"]) connected_world in
  account w = "0x2222"
  /\ requests w = requests connected_world
  /\ contracts w = contracts connected_world
  /\ option_map contract_runner (token (contracts w))
     = Some {| signer_account := "0x1111" |}
  /\ option_map contract_runner (dice (contracts w))
     = Some {| signer_account := "0x1111" |}.
Proof. vm_compute. repeat split. Qed.

(* ------------------------------------------------------------------ *)
(** ** Network switch protocol *)

(** C3, on the code: a switch to the main network whose request the wallet
    accepts, and no chain-changed event within 10 seconds.  The timer
    rejects the promise and the run ends with the timeout error, but its
    [chainChangeHandler] is still registered; on the confirmed path the
    handler removes itself. *)
Theorem switch_timeout_leaves_listener :
  let timed_out :=
    steps scenario_env
      [ClickSwitchNetwork "mainnet"; RequestAnswered 0 (Ok tt);
       TimePasses 10000; TimerFires (RejectSwitch 0)] connected_world in
  let confirmed :=
    steps scenario_env
      [ClickSwitchNetwork "mainnet"; RequestAnswered 0 (Ok tt);
       WalletChanges (scenario_wallet 50); chainChanged 50] connected_world in
  phase_of 0 timed_out = Some (Settled (Throw (Error "Network switch timeout")))
  /\ listeners timed_out = [AppChainHandler; chainChangeHandler 0]
  /\ phase_of 0 confirmed = Some (Settled (Ok tt))
  /\ listeners confirmed = [AppChainHandler].
Proof. vm_compute. repeat split. Qed.

(** Projects fields out of updated worlds and runs. *)
Tactic Notation "world_simpl" :=
  cbn [fst snd provider contracts account chainId toasts loadingStates
       lastErrorKey ethereum listeners requests wallet clock random_tape
       random_pos timers runs
       with_provider with_contracts with_account with_chainId with_toasts
       with_loadingStates with_lastErrorKey with_listeners with_requests
       with_wallet with_clock with_random_pos with_timers with_runs
       run_network run_chainIdHex run_account run_promise run_phase run_caller
       with_run_promise with_run_phase].

Tactic Notation "world_simpl" "in" hyp(H) :=
  cbn [fst snd provider contracts account chainId toasts loadingStates
       lastErrorKey ethereum listeners requests wallet clock random_tape
       random_pos timers runs
       with_provider with_contracts with_account with_chainId with_toasts
       with_loadingStates with_lastErrorKey with_listeners with_requests
       with_wallet with_clock with_random_pos with_timers with_runs
       run_network run_chainIdHex run_account run_promise run_phase run_caller
       with_run_promise with_run_phase] in H.

Lemma nth_error_snoc {A} (l : list A) (x : A) :
  nth_error (l ++ [x]) (length l) = Some x.
Proof. rewrite nth_error_app2, Nat.sub_diag by lia. reflexivity. Qed.

Lemma map_nth_snoc {A} (f : A -> A) (l : list A) (x : A) :
  map_nth (length l) f (l ++ [x]) = l ++ [f x].
Proof. induction l as [|y l IH]; simpl; [reflexivity | now rewrite IH]. Qed.

Lemma switchNetwork_start env networkType caller w :
  ethereum w = true ->
  switchNetwork env networkType caller w =
    (Ok (Some (length (runs w))),
     with_requests
       (requests w ++ [req_wallet_switchEthereumChain
                         (run_chainIdHex (new_run env networkType caller w))])
       (with_listeners (listeners w ++ [chainChangeHandler (length (runs w))])
          (with_timers
             (timers w ++ [{| timer_due := clock w + 10000;
                              timer_action := RejectSwitch (length (runs w)) |}])
             (with_contracts no_contracts
                (with_loadingStates (set_ls_wallet true (loadingStates w))
                   (with_runs (runs w ++ [new_run env networkType caller w]) w)))))).
Proof.
  intros H. unfold switchNetwork, bind, gets. simpl. rewrite H. reflexivity.
Qed.

(** C5, as stated, fails: a second click while the first switch is still
    awaiting the wallet starts a second run; both runs are in flight and
    both temporary listeners are registered. *)
Lemma second_switch_is_started :
  let w :=
    steps scenario_env [ClickSwitchNetwork "mainnet"; ClickSwitchNetwork "mainnet"]
      connected_world in
  phase_of 0 w = Some AwaitSwitchRequest
  /\ phase_of 1 w = Some AwaitSwitchRequest
  /\ listeners w = [AppChainHandler; chainChangeHandler 0; chainChangeHandler 1]
  /\ requests w = [req_eth_accounts; req_wallet_switchEthereumChain "0x32";
                   req_wallet_switchEthereumChain "0x32"].
Proof. vm_compute. repeat split. Qed.

(** C5, amended: [switchNetwork] has no guard against a switch in flight.
    When the wallet is present, a call starts a new run whatever the
    earlier runs are doing: it leaves them as they are, registers its own
    temporary listener and timer after theirs, and sends its own
    switch-chain request. *)
Theorem switchNetwork_always_starts env networkType caller w :
  ethereum w = true ->
  let i := length (runs w) in
  let w' := exec (switchNetwork env networkType caller) w in
  fst (switchNetwork env networkType caller w) = Ok (Some i)
  /\ runs w' = runs w ++ [new_run env networkType caller w]
  /\ listeners w' = listeners w ++ [chainChangeHandler i]
  /\ timers w' = timers w ++ [{| timer_due := clock w + 10000;
                                 timer_action := RejectSwitch i |}]
  /\ requests w' =
       requests w ++ [req_wallet_switchEthereumChain
                        ("0x" +++ toString16 (net_chainId (network_of_type env networkType)))].
Proof.
  intros H i w'. unfold w', exec. rewrite (switchNetwork_start _ _ _ _ H).
  repeat split.
Qed.

Lemma switchNetwork_always_starts_witness :
  let w := step scenario_env (ClickSwitchNetwork "mainnet") connected_world in
  let w' := exec (switchNetwork scenario_env "testnet" FromButton) w in
  phase_of 0 w = Some AwaitSwitchRequest
  /\ listeners w' = listeners w ++ [chainChangeHandler 1]
  /\ phase_of 0 w' = Some AwaitSwitchRequest
  /\ phase_of 1 w' = Some AwaitSwitchRequest.
Proof.
  intros w w'.
  destruct (switchNetwork_always_starts scenario_env "testnet" FromButton w)
    as [_ [_ [Hl _]]].
  - vm_compute. reflexivity.
  - split; [vm_compute; reflexivity |].
    split; [exact Hl |].
    split; vm_compute; reflexivity.
Defined.

(** C4, as stated, fails: after the wallet has answered 4902 and the
    register-chain request has been accepted, the run awaits the
    confirmation; the switch-chain request was sent once, before the
    register-chain request, and is not sent again. *)
Lemma unknown_chain_no_second_switch_request :
  let w :=
    steps scenario_env
      [ClickSwitchNetwork "testnet";
       RequestAnswered 0 (Throw unknown_chain_error);
       RequestAnswered 0 (Ok tt)] connected_world in
  phase_of 0 w = Some AwaitConfirmation
  /\ requests w =
       [req_eth_accounts;
        req_wallet_switchEthereumChain "0x33";
        req_wallet_addEthereumChain
          {| add_chainId := "0x33";
             add_chainName := "XDC Apothem Testnet";
             add_rpcUrls := ["https://rpc.apothem.network"];
             add_nativeCurrency :=
               {| nc_name := "XDC"; nc_symbol := "XDC"; nc_decimals := 18 |} |}]
  /\ count_occ string_dec
       (flat_map (fun r => match r with
                           | req_wallet_switchEthereumChain c => [c]
                           | _ => []
                           end) (requests w)) "0x33" = 1%nat.
Proof. vm_compute. repeat split. Qed.

(** C4, amended: when the wallet answers the switch-chain request of a run
    with error code 4902, the run sends a register-chain request with the
    target's chain id in hexadecimal, its name, its rpcUrl and the native
    currency XDC (symbol XDC, 18 decimals); once that request is accepted
    the run awaits the confirmation without sending the switch-chain
    request again. *)
Theorem unknown_chain_registers_then_waits env networkType caller w (e : JsError) :
  ethereum w = true ->
  err_code e = Some 4902 ->
  let i := length (runs w) in
  let network := network_of_type env networkType in
  let chainIdHex := "0x" +++ toString16 (net_chainId network) in
  let w0 := exec (switchNetwork env networkType caller) w in
  let w1 := step env (RequestAnswered i (Throw e)) w0 in
  let w2 := step env (RequestAnswered i (Ok tt)) w1 in
  requests w0 = requests w ++ [req_wallet_switchEthereumChain chainIdHex]
  /\ requests w1 =
       requests w0
         ++ [req_wallet_addEthereumChain
               {| add_chainId := chainIdHex;
                  add_chainName := net_name network;
                  add_rpcUrls := [net_rpcUrl network];
                  add_nativeCurrency :=
                    {| nc_name := "XDC"; nc_symbol := "XDC"; nc_decimals := 18 |} |}]
  /\ phase_of i w1 = Some AwaitAddRequest
  /\ requests w2 = requests w1
  /\ phase_of i w2 = Some AwaitConfirmation.
Proof.
  intros Heth Hcode i network chainIdHex w0 w1 w2.
  assert (E0 : w0 = snd (switchNetwork env networkType caller w)) by reflexivity.
  rewrite (switchNetwork_start _ _ _ _ Heth) in E0. simpl in E0.
  assert (E1 : w1 =
    with_runs (runs w ++ [with_run_phase AwaitAddRequest
                            (new_run env networkType caller w)])
      (with_requests
         (requests w0
            ++ [req_wallet_addEthereumChain
                  (addChain_params chainIdHex network)]) w0)).
  { unfold w1, step, exec, request_answered, bind, get_run, gets. rewrite E0.
    world_simpl. fold i. unfold i at 1. rewrite nth_error_snoc.
    unfold new_run at 1. world_simpl. unfold code_is. rewrite Hcode.
    cbn [Z.eqb Pos.eqb]. unfold ethereum_request, update_run, modify.
    world_simpl. unfold i. rewrite map_nth_snoc. reflexivity. }
  assert (E2 : w2 =
    with_runs (runs w ++ [with_run_phase AwaitConfirmation
                            (with_run_phase AwaitAddRequest
                               (new_run env networkType caller w))]) w1).
  { unfold w2, step, exec, request_answered, bind, get_run, gets. rewrite E1.
    world_simpl. unfold i. rewrite nth_error_snoc. world_simpl.
    unfold await_networkSwitchPromise, bind, get_run, gets.
    world_simpl. rewrite nth_error_snoc. unfold new_run at 1. world_simpl.
    unfold update_run, modify. world_simpl. rewrite map_nth_snoc. reflexivity. }
  split; [rewrite E0; reflexivity |].
  split; [rewrite E1; reflexivity |].
  split; [rewrite E1; unfold phase_of; world_simpl; unfold i;
          rewrite nth_error_snoc; reflexivity |].
  split; [rewrite E2; reflexivity |].
  rewrite E2. unfold phase_of. world_simpl. unfold i.
  rewrite nth_error_snoc. reflexivity.
Qed.

Lemma unknown_chain_registers_then_waits_witness :
  let w0 := exec (switchNetwork scenario_env "testnet" FromButton) connected_world in
  let w1 := step scenario_env (RequestAnswered 0 (Throw unknown_chain_error)) w0 in
  let w2 := step scenario_env (RequestAnswered 0 (Ok tt)) w1 in
  requests w2 = requests w1 /\ phase_of 0 w2 = Some AwaitConfirmation.
Proof.
  intros w0 w1 w2.
  destruct (unknown_chain_registers_then_waits scenario_env "testnet" FromButton
              connected_world unknown_chain_error)
    as [_ [_ [_ [H4 H5]]]].
  - vm_compute. reflexivity.
  - reflexivity.
  - split; [exact H4 | exact H5].
Defined.

(* ------------------------------------------------------------------ *)
(** ** Connecting on an unsupported chain *)

Lemma Forall_map_nth {A} (R : A -> Prop) (f : A -> A) (l : list A) (i : nat) :
  Forall R l ->
  (forall x, nth_error l i = Some x -> R x -> R (f x)) ->
  Forall R (map_nth i f l).
Proof.
  revert i. induction l as [|y l IH]; intros i Hl Hf; simpl; [constructor |].
  inversion Hl as [|? ? Hy Hl']; subst. destruct i as [|i].
  - constructor; [apply Hf; [reflexivity | exact Hy] | exact Hl'].
  - constructor; [exact Hy |]. apply IH; [exact Hl' |].
    intros x Hx. apply Hf. exact Hx.
Qed.

Lemma nth_error_map_nth {A} (f : A -> A) (l : list A) (i : nat) :
  nth_error (map_nth i f l) i = option_map f (nth_error l i).
Proof.
  revert i. induction l as [|y l IH]; intros [|i]; simpl; try reflexivity.
  apply IH.
Qed.

Lemma Forall_nth_error {A} (R : A -> Prop) (l : list A) (i : nat) (x : A) :
  Forall R l -> nth_error l i = Some x -> R x.
Proof.
  intros Hl Hx. rewrite Forall_forall in Hl. apply Hl.
  eapply nth_error_In, Hx.
Qed.

Section Disconnected.
Let P : World -> Prop := disconnected.

Local Ltac field := apply keeps_modify; intros w H; exact H.

Lemma disc_setProvider v : keeps P (setProvider v).
Proof. field. Qed.
Lemma disc_setChainId v : keeps P (setChainId v).
Proof. field. Qed.
Lemma disc_setToasts f : keeps P (setToasts f).
Proof. field. Qed.
Lemma disc_setLoadingStates f : keeps P (setLoadingStates f).
Proof. field. Qed.
Lemma disc_lastErrorKey v : keeps P (modify (with_lastErrorKey v)).
Proof. field. Qed.
Lemma disc_Date_now : keeps P Date_now.
Proof. apply keeps_gets. Qed.
Lemma disc_Math_random : keeps P Math_random.
Proof. intros w H. exact H. Qed.
Lemma disc_setTimeout a d : keeps P (setTimeout a d).
Proof. field. Qed.
Lemma disc_clearTimeout a : keeps P (clearTimeout a).
Proof. field. Qed.
Lemma disc_ethereum_on l : keeps P (ethereum_on l).
Proof. field. Qed.
Lemma disc_ethereum_removeListener l : keeps P (ethereum_removeListener l).
Proof. field. Qed.
Lemma disc_ethereum_request r : keeps P (ethereum_request r).
Proof. field. Qed.
Lemma disc_get_run i : keeps P (get_run i).
Proof. apply keeps_gets. Qed.

Lemma disc_setContracts_none : keeps P (setContracts no_contracts).
Proof. apply keeps_modify. intros w [Ha [Hc Hr]]. repeat split; assumption. Qed.

Lemma disc_setAccount_empty : keeps P (setAccount "").
Proof. apply keeps_modify. intros w [Ha [Hc Hr]]. repeat split; assumption. Qed.

Lemma disc_update_run_promise i p : keeps P (update_run i (with_run_promise p)).
Proof.
  apply keeps_modify. intros w [Ha [Hc Hr]]. repeat split; try assumption.
  apply Forall_map_nth; [exact Hr |]. intros x _ Hx. exact Hx.
Qed.

Lemma disc_update_run_settled i r :
  keeps P (update_run i (with_run_phase (Settled r))).
Proof.
  apply keeps_modify. intros w [Ha [Hc Hr]]. repeat split; try assumption.
  apply Forall_map_nth; [exact Hr |]. intros x _ _. right. now exists r.
Qed.

Hint Resolve disc_setProvider disc_setChainId disc_setToasts
  disc_setLoadingStates disc_lastErrorKey disc_Date_now disc_Math_random
  disc_setTimeout disc_clearTimeout disc_ethereum_on
  disc_ethereum_removeListener disc_ethereum_request disc_get_run
  disc_setContracts_none disc_setAccount_empty disc_update_run_promise
  disc_update_run_settled : keeps.

Lemma disc_addToast message type : keeps P (addToast message type).
Proof. unfold addToast. keeps_split. Qed.
Hint Resolve disc_addToast : keeps.

Lemma disc_removeToast id : keeps P (removeToast id).
Proof. unfold removeToast. keeps_split. Qed.

Lemma disc_handleError e context : keeps P (handleError e context).
Proof. unfold handleError. keeps_split. Qed.
Hint Resolve disc_handleError : keeps.

Lemma disc_validateNetwork env p : keeps P (validateNetwork env p).
Proof. unfold validateNetwork. keeps_split. Qed.

Lemma disc_connectWallet_resumed r : keeps P (connectWallet_resumed r).
Proof.
  unfold connectWallet_resumed, connectWallet_catch, connectWallet_finally.
  keeps_split.
Qed.
Hint Resolve disc_connectWallet_resumed : keeps.

Lemma disc_switchNetwork_settle i caller r : keeps P (switchNetwork_settle i caller r).
Proof. unfold switchNetwork_settle. keeps_split. Qed.
Hint Resolve disc_switchNetwork_settle : keeps.

Lemma disc_switchNetwork_catch i caller e : keeps P (switchNetwork_catch i caller e).
Proof. unfold switchNetwork_catch. keeps_split. Qed.
Hint Resolve disc_switchNetwork_catch : keeps.

(** With an empty captured account the confirmed run binds nothing. *)
Lemma disc_switchNetwork_confirmed env i run :
  run_account run = "" -> keeps P (switchNetwork_confirmed env i run).
Proof. intros H. unfold switchNetwork_confirmed. rewrite H. keeps_split. Qed.

(** With an empty account [handleChainChanged] binds nothing. *)
Lemma disc_handleChainChanged env n : keeps P (handleChainChanged env n).
Proof.
  unfold handleChainChanged. apply keeps_bind; [apply keeps_gets | intro prov].
  apply (keeps_bind_gets P account (fun a => a = ""));
    [intros w [Ha _]; exact Ha | intros acct ->].
  keeps_split.
Qed.
Hint Resolve disc_handleChainChanged : keeps.

Lemma quiet_live (run : SwitchRun) :
  run_quiet run -> (forall res, run_phase run <> Settled res) -> run_account run = "".
Proof. intros [H | [res H]] Hlive; [exact H | now elim (Hlive res)]. Qed.

Lemma bind_gets {A B} (f : World -> A) (k : A -> M B) (w : World) :
  bind (gets f) k w = k (f w) w.
Proof. reflexivity. Qed.

(** A run with an empty captured account may change phase. *)
Lemma disc_update_run_phase i ph w :
  P w ->
  (forall run, nth_error (runs w) i = Some run -> run_account run = "") ->
  P (exec (update_run i (with_run_phase ph)) w).
Proof.
  intros [Ha [Hc Hr]] Hi. repeat split; try assumption.
  change (Forall run_quiet (map_nth i (with_run_phase ph) (runs w))).
  apply Forall_map_nth; [exact Hr |]. intros x Hx _. left. exact (Hi x Hx).
Qed.

Lemma disc_await env i w :
  P w ->
  (forall run, nth_error (runs w) i = Some run -> run_account run = "") ->
  P (exec (await_networkSwitchPromise env i) w).
Proof.
  intros HP Hi. unfold exec, await_networkSwitchPromise, get_run.
  rewrite bind_gets. destruct (nth_error (runs w) i) as [run|] eqn:E; [| exact HP].
  pose proof (Hi run eq_refl) as Hacc.
  destruct (run_promise run).
  - apply (disc_update_run_phase i AwaitConfirmation w HP).
    intros run' Hrun'. rewrite E in Hrun'. now injection Hrun' as <-.
  - apply disc_switchNetwork_confirmed; [exact Hacc | exact HP].
  - apply disc_switchNetwork_catch, HP.
Qed.

Lemma disc_settle_promise env i outcome : keeps P (settle_promise env i outcome).
Proof.
  intros w HP. unfold settle_promise, get_run. rewrite bind_gets.
  destruct (nth_error (runs w) i) as [run|] eqn:E; [| exact HP].
  destruct (run_promise run); try exact HP.
  pose proof (disc_update_run_promise i outcome w HP) as HP'.
  destruct (run_phase run) eqn:Eph; try exact HP'.
  change (P (exec (await_networkSwitchPromise env i)
               (exec (update_run i (with_run_promise outcome)) w))).
  apply disc_await; [exact HP' |].
  intros run' Hrun'.
  change (nth_error (map_nth i (with_run_promise outcome) (runs w)) i = Some run')
    in Hrun'.
  rewrite nth_error_map_nth, E in Hrun'. injection Hrun' as <-.
  apply (quiet_live run).
  - destruct HP as [_ [_ Hr]]. exact (Forall_nth_error _ _ _ _ Hr E).
  - intros res. rewrite Eph. discriminate.
Qed.
Hint Resolve disc_settle_promise : keeps.

Lemma disc_run_chainChangeHandler env i n : keeps P (run_chainChangeHandler env i n).
Proof. unfold run_chainChangeHandler. keeps_split. Qed.

Lemma disc_emit env n ls : keeps P (emit env n ls).
Proof.
  induction ls as [|l ls IH]; simpl; [apply keeps_ret |].
  apply keeps_bind; [| intro; exact IH].
  destruct l; simpl;
    [apply disc_handleChainChanged | apply disc_run_chainChangeHandler].
Qed.

Lemma disc_request_answered env i r : keeps P (request_answered env i r).
Proof.
  intros w HP. unfold request_answered, get_run. rewrite bind_gets.
  destruct (nth_error (runs w) i) as [run|] eqn:E; [| exact HP].
  assert (Hq : run_quiet run).
  { destruct HP as [_ [_ Hr]]. exact (Forall_nth_error _ _ _ _ Hr E). }
  assert (Hi : (forall res, run_phase run <> Settled res) ->
               forall run', nth_error (runs w) i = Some run' -> run_account run' = "").
  { intros Hlive run' Hrun'. rewrite E in Hrun'. injection Hrun' as <-.
    now apply quiet_live. }
  destruct (run_phase run) eqn:Eph; destruct r as [[]|e]; try exact HP.
  - apply disc_await; [exact HP | apply Hi; discriminate].
  - destruct (code_is e 4902).
    + apply (disc_update_run_phase i AwaitAddRequest
               (exec (ethereum_request
                        (req_wallet_addEthereumChain
                           (addChain_params (run_chainIdHex run) (run_network run)))) w)).
      * exact HP.
      * apply Hi. discriminate.
    + apply disc_switchNetwork_catch, HP.
  - apply disc_await; [exact HP | apply Hi; discriminate].
  - apply disc_switchNetwork_catch, HP.
Qed.

Lemma disc_run_timer env a : keeps P (run_timer env a).
Proof. destruct a; simpl; [| unfold run_switch_timeout]; keeps_split. Qed.

Lemma disc_step env ev w : no_reconnect ev -> P w -> P (step env ev w).
Proof.
  intros Hev HP. destruct ev; simpl in Hev; try contradiction; simpl.
  - destruct HP as [Ha HP]. rewrite Ha. simpl. now split.
  - destruct HP as [Ha HP]. rewrite Ha. simpl. now split.
  - apply keeps_exec; [apply disc_removeToast | exact HP].
  - apply keeps_exec; [apply disc_emit | exact HP].
  - apply keeps_exec; [apply disc_request_answered | exact HP].
  - destruct (existsb _ _); [| exact HP].
    apply keeps_exec; [apply disc_run_timer | exact HP].
  - exact HP.
  - exact HP.
Qed.

Lemma disc_steps env evs w : Forall no_reconnect evs -> P w -> P (steps env evs w).
Proof.
  revert w. induction evs as [|ev evs IH]; intros w Hevs HP; simpl; [exact HP |].
  inversion Hevs; subst. apply IH; [assumption |]. now apply disc_step.
Qed.
End Disconnected.




(* ================================================================== *)
(** * Further properties of the session code *)

(** ** Network registry *)

Lemma supported_iff (env : ImportMetaEnv) (id : Z) :
  supported env id = true <-> id = 50 \/ id = 51.
Proof.
  unfold supported. simpl. rewrite !orb_true_iff, !Z.eqb_eq.
  split; [intros [H | [H | H]]; [auto | auto | discriminate] | intros [H | H]; auto].
Qed.

Lemma find_network_supported (env : ImportMetaEnv) (id : Z) :
  supported env id = true ->
  exists n, find_network env id = Some n /\ network_by_key env id = Some n
            /\ net_chainId n = id /\ In n (map snd (NETWORKS env)).
Proof.
  intros H. apply supported_iff in H. destruct H as [-> | ->].
  - exists (MAINNET env). repeat split. simpl. now left.
  - exists (APOTHEM env). repeat split. simpl. right. now left.
Qed.

Lemma find_network_unsupported (env : ImportMetaEnv) (id : Z) :
  supported env id = false ->
  find_network env id = None /\ network_by_key env id = None.
Proof.
  intros H.
  assert (N : ~ (id = 50 \/ id = 51)).
  { intros Hid. apply (supported_iff env) in Hid. congruence. }
  unfold find_network, network_by_key, NETWORKS.
  cbn [map snd fst find net_chainId MAINNET APOTHEM].
  destruct (Z.eqb_spec 50 id); [elim N; auto |].
  destruct (Z.eqb_spec 51 id); [elim N; auto |].
  split; reflexivity.
Qed.

(** X1: the three lookups of the registry agree.  A chain id passes
    [SUPPORTED_CHAIN_IDS.includes] exactly when it is 50 or 51; then the
    lookup by value of [validateNetwork] and the lookup by key of
    [initializeContracts] find the same configuration, whose chain id is
    the one looked up; and for any other id both find nothing. *)
Theorem registry_lookups_agree (env : ImportMetaEnv) (id : Z) :
  (supported env id = true <-> id = 50 \/ id = 51)
  /\ network_by_key env id = find_network env id
  /\ (supported env id = true ->
      exists n, find_network env id = Some n /\ net_chainId n = id
                /\ In n (map snd (NETWORKS env)))
  /\ (supported env id = false -> find_network env id = None).
Proof.
  split; [apply supported_iff |]. split.
  - destruct (supported env id) eqn:H.
    + destruct (find_network_supported env id H) as [n [H1 [H2 _]]]. congruence.
    + destruct (find_network_unsupported env id H). congruence.
  - split.
    + intros H. destruct (find_network_supported env id H) as [n [H1 [_ [H3 H4]]]].
      exists n. auto.
    + intros H. apply find_network_unsupported, H.
Qed.

Lemma registry_lookups_agree_witness :
  find_network scenario_env 51 = Some (APOTHEM scenario_env)
  /\ find_network scenario_env 7 = None.
Proof.
  split.
  - destruct (registry_lookups_agree scenario_env 51) as [_ [_ [H _]]].
    destruct (H eq_refl) as [n [Hn _]]. rewrite Hn. vm_compute in Hn.
    now injection Hn as <-.
  - apply (registry_lookups_agree scenario_env 7). reflexivity.
Defined.

(* ------------------------------------------------------------------ *)
(** ** Network validator: what it answers *)

Lemma validateNetwork_ok env p w id b :
  getNetwork (wallet w) = Ok id ->
  supported env id = true ->
  getBlockNumber (wallet w) = Ok b ->
  validateNetwork env p w = (Ok id, with_chainId (Some id) w).
Proof.
  intros Hn Hs Hb. destruct (find_network_supported env id Hs) as [n [Hf _]].
  unfold validateNetwork, bind, ask, setChainId, modify. rewrite Hn. simpl.
  rewrite Hs, Hf. simpl. unfold try_catch, bind, ask. simpl. now rewrite Hb.
Qed.

(** X2: [validateNetwork] returns exactly when the provider reports a
    supported chain and the block-number probe answers, and it returns the
    reported id.  On an unsupported chain it throws the "Please switch"
    error that names the id; when the probe fails it throws "Failed to
    connect to" followed by the network's name, whatever the probe's own
    error was. *)
Theorem validateNetwork_result (env : ImportMetaEnv) (p : Provider) (w : World) (id : Z) :
  getNetwork (wallet w) = Ok id ->
  (supported env id = false ->
     fst (validateNetwork env p w) = Throw (unsupported_error id))
  /\ (forall n rpcError,
        find_network env id = Some n ->
        getBlockNumber (wallet w) = Throw rpcError ->
        fst (validateNetwork env p w)
          = Throw (Error ("Failed to connect to " +++ net_name n)))
  /\ (forall r, fst (validateNetwork env p w) = Ok r <->
        r = id /\ supported env id = true
        /\ exists b, getBlockNumber (wallet w) = Ok b).
Proof.
  intros Hn. split; [| split].
  - intros Hs. unfold validateNetwork, bind, ask, setChainId, modify.
    rewrite Hn. simpl. now rewrite Hs.
  - intros n rpcError Hf Hb.
    assert (Hs : supported env id = true).
    { destruct (supported env id) eqn:E; [reflexivity |].
      destruct (find_network_unsupported env id E). congruence. }
    unfold validateNetwork, bind, ask, setChainId, modify. rewrite Hn. simpl.
    rewrite Hs, Hf. simpl. unfold try_catch, bind, ask. simpl. now rewrite Hb.
  - intros r. split.
    + unfold validateNetwork, bind, ask, setChainId, modify. rewrite Hn. simpl.
      destruct (supported env id) eqn:Hs; simpl; [| discriminate].
      destruct (find_network env id); simpl; [| discriminate].
      unfold try_catch, bind, ask, throw, ret. simpl.
      destruct (getBlockNumber (wallet w)) as [b|e]; simpl; [| discriminate].
      intros [= <-]. eauto.
    + intros [-> [Hs [b Hb]]]. now rewrite (validateNetwork_ok env p w id b).
Qed.

Lemma validateNetwork_result_witness :
  fst (validateNetwork scenario_env BrowserProvider unsupported_world)
    = Throw (Error "Please switch to a supported network. Connected to chain ID: 7")
  /\ fst (validateNetwork scenario_env BrowserProvider connected_world) = Ok 51.
Proof.
  split.
  - apply (validateNetwork_result scenario_env BrowserProvider unsupported_world 7);
      reflexivity.
  - apply (validateNetwork_result scenario_env BrowserProvider connected_world 51).
    + reflexivity.
    + split; [reflexivity |]. split; [reflexivity |]. exists 4242. reflexivity.
Defined.

(* ------------------------------------------------------------------ *)
(** ** Contract binder *)

Lemma initializeContracts_ok env p a w id n :
  getNetwork (wallet w) = Ok id ->
  network_by_key env id = Some n ->
  getSigner_error (wallet w) = None ->
  initializeContracts env p a w =
    (Ok (Some (bound_contracts n a)),
     with_loadingStates (set_ls_contracts false (loadingStates w))
       (with_contracts (bound_contracts n a) w)).
Proof.
  intros Hn Hk Hs.
  unfold initializeContracts, try_catch, bind, ask, getSigner, setContracts,
    setLoadingStates, modify, ret.
  rewrite Hn, Hk. world_simpl. rewrite Hs. reflexivity.
Qed.

Lemma handleError_never_throws (e : JsError) (context : string) (w : World) :
  exists r, handleError e context w = (Ok r, exec (handleError e context) w).
Proof.
  unfold exec, handleError, bind, Date_now, gets. simpl.
  destruct (lastErrorKey w) as [k|]; [destruct (String.eqb k _) |];
    eexists; reflexivity.
Qed.

Lemma initializeContracts_fail env p a w e :
  binding_failure env (wallet w) = Some e ->
  initializeContracts env p a w =
    (Ok None,
     exec (setLoadingStates (set_ls_contracts false))
       (exec (setContracts no_contracts)
          (exec (handleError e "initializeContracts") w))).
Proof.
  unfold binding_failure. intros H.
  destruct (handleError_never_throws e "initializeContracts" w) as [r Hr].
  unfold initializeContracts, try_catch, bind at 1, ask.
  destruct (getNetwork (wallet w)) as [id|e0] eqn:Hn.
  - destruct (network_by_key env id) as [n|] eqn:Hk.
    + unfold bind at 1, getSigner. rewrite H. unfold bind at 1. now rewrite Hr.
    + injection H as <-. unfold unsupported_binding_error in Hr.
      unfold throw, bind at 1. now rewrite Hr.
  - injection H as <-. unfold bind at 1. now rewrite Hr.
Qed.

(** X3: when the provider reports a supported chain and hands out a
    signer, [initializeContracts] binds both handles to the addresses the
    registry gives for that chain, with the signer of the account passed
    in; it returns them, clears the contracts loading flag and changes
    nothing else.  The block-number probe plays no part. *)
Theorem initializeContracts_binds (env : ImportMetaEnv) (p : Provider) (a : string)
    (w : World) (id : Z) :
  getNetwork (wallet w) = Ok id ->
  supported env id = true ->
  getSigner_error (wallet w) = None ->
  exists n,
    find_network env id = Some n
    /\ net_chainId n = id
    /\ initializeContracts env p a w =
         (Ok (Some (bound_contracts n a)),
          with_loadingStates (set_ls_contracts false (loadingStates w))
            (with_contracts (bound_contracts n a) w)).
Proof.
  intros Hn Hs Hg.
  destruct (find_network_supported env id Hs) as [n [Hf [Hk [Hid _]]]].
  exists n. split; [exact Hf |]. split; [exact Hid |].
  now apply (initializeContracts_ok env p a w id n).
Qed.

Lemma initializeContracts_binds_witness :
  contracts (exec (initializeContracts scenario_env BrowserProvider "0x2222")
               (with_wallet (scenario_wallet 50) connected_world))
    = bound_contracts (MAINNET scenario_env) "0x2222".
Proof.
  destruct (initializeContracts_binds scenario_env BrowserProvider "0x2222"
              (with_wallet (scenario_wallet 50) connected_world) 50)
    as [n [Hf [_ E]]].
  - reflexivity.
  - reflexivity.
  - reflexivity.
  - unfold exec. rewrite E. vm_compute in Hf. injection Hf as <-. reflexivity.
Defined.

(** X4: [initializeContracts] never throws and binds all or nothing.
    Either it returns both handles, bound for one network of the registry
    and the account passed in, and they are the session's contracts; or it
    returns [null] and the session's contracts are both [null], whatever
    was bound before.  The contracts loading flag is cleared either way. *)
Theorem initializeContracts_all_or_nothing (env : ImportMetaEnv) (p : Provider)
    (a : string) (w : World) :
  ((exists n, In n (map snd (NETWORKS env))
              /\ fst (initializeContracts env p a w) = Ok (Some (bound_contracts n a))
              /\ contracts (exec (initializeContracts env p a) w) = bound_contracts n a)
   \/ (fst (initializeContracts env p a w) = Ok None
       /\ contracts (exec (initializeContracts env p a) w) = no_contracts))
  /\ ls_contracts (loadingStates (exec (initializeContracts env p a) w)) = false.
Proof.
  destruct (binding_failure env (wallet w)) as [e|] eqn:Hb.
  - unfold exec. rewrite (initializeContracts_fail env p a w e Hb).
    split; [right; split; reflexivity | reflexivity].
  - unfold binding_failure in Hb.
    destruct (getNetwork (wallet w)) as [id|] eqn:Hn; [| discriminate].
    destruct (network_by_key env id) as [n|] eqn:Hk; [| discriminate].
    unfold exec. rewrite (initializeContracts_ok env p a w id n Hn Hk Hb).
    split; [left; exists n | reflexivity].
    split; [| split; reflexivity].
    destruct (supported env id) eqn:Hs.
    + destruct (find_network_supported env id Hs) as [n' [_ [Hk' [_ Hin]]]].
      congruence.
    + destruct (find_network_unsupported env id Hs). congruence.
Qed.

(* ------------------------------------------------------------------ *)
(** ** Chain-changed events *)

Lemma has_message_after_add id message type q :
  has_message message (addToast_update id message type q) = true.
Proof.
  destruct (has_message message q) eqn:E.
  - now rewrite addToast_update_present.
  - rewrite addToast_update_absent by exact E.
    unfold has_message. rewrite existsb_app. simpl.
    rewrite String.eqb_refl. apply orb_true_iff. right. reflexivity.
Qed.

(** After [addToast] the message is in the queue. *)
Lemma addToast_shows message type w :
  has_message message (toasts (exec (addToast message type) w)) = true.
Proof. apply has_message_after_add. Qed.

Lemma handleChainChanged_unsupported_eq env n w :
  supported env n = false ->
  exec (handleChainChanged env n) w =
    exec (addToast "Please switch to a supported network" warning)
      (with_provider None (with_contracts no_contracts (with_chainId (Some n) w))).
Proof.
  intros Hs. unfold exec, handleChainChanged, bind at 1 2 3, gets, setChainId, modify.
  world_simpl. rewrite Hs. cbn [negb].
  unfold try_catch, bind at 1 2, setContracts, setProvider, modify. world_simpl.
  destruct (addToast _ _ _) as [[[]|e] w'] eqn:E; [reflexivity |].
  exfalso. revert E. unfold addToast, bind, Date_now, gets, Math_random, setToasts,
    setTimeout, modify. simpl. discriminate.
Qed.

(** X5: a chain-changed event for an unsupported chain stores the chain
    id, unbinds both contracts, drops the provider and shows the "Please
    switch" warning, whatever the session was; the account is kept and the
    wallet is not asked anything. *)
Theorem handleChainChanged_unsupported (env : ImportMetaEnv) (n : Z) (w : World) :
  supported env n = false ->
  let w' := exec (handleChainChanged env n) w in
  chainId w' = Some n
  /\ contracts w' = no_contracts
  /\ provider w' = None
  /\ account w' = account w
  /\ requests w' = requests w
  /\ has_message "Please switch to a supported network" (toasts w') = true.
Proof.
  intros Hs w'. unfold w'. rewrite (handleChainChanged_unsupported_eq env n w Hs).
  repeat split. apply addToast_shows.
Qed.

Lemma handleChainChanged_unsupported_witness :
  let w' := step scenario_env (chainChanged 7) connected_world in
  chainId w' = Some 7 /\ contracts w' = no_contracts /\ provider w' = None
  /\ account w' = "0x1111".
Proof.
  intros w'.
  destruct (handleChainChanged_unsupported scenario_env 7 connected_world eq_refl)
    as [H1 [H2 [H3 [H4 _]]]].
  split; [exact H1 | split; [exact H2 | split; [exact H3 | exact H4]]].
Defined.

(** *** Running a handler statement by statement *)

Lemma bind_ok {A B} (m : M A) (k : A -> M B) (w w' : World) (a : A) :
  m w = (Ok a, w') -> bind m k w = k a w'.
Proof. intros H. unfold bind. now rewrite H. Qed.

Lemma bind_throw {A B} (m : M A) (k : A -> M B) (w w' : World) (e : JsError) :
  m w = (Throw e, w') -> bind m k w = (Throw e, w').
Proof. intros H. unfold bind. now rewrite H. Qed.

Lemma try_catch_ok {A} (body : M A) (handler : JsError -> M A) (w w' : World) (a : A) :
  body w = (Ok a, w') -> try_catch body handler w = (Ok a, w').
Proof. intros H. unfold try_catch. now rewrite H. Qed.

Lemma try_catch_throw {A} (body : M A) (handler : JsError -> M A) (w w' : World)
    (e : JsError) :
  body w = (Throw e, w') -> try_catch body handler w = handler e w'.
Proof. intros H. unfold try_catch. now rewrite H. Qed.

Lemma addToast_run (message : string) (type : ToastType) (w : World) :
  addToast message type w = (Ok tt, exec (addToast message type) w).
Proof. reflexivity. Qed.

Lemma handleError_run (e : JsError) (context : string) (w : World) :
  exists r, handleError e context w = (Ok r, exec (handleError e context) w).
Proof. apply handleError_never_throws. Qed.

Lemma validateNetwork_unsupported env p w id :
  getNetwork (wallet w) = Ok id ->
  supported env id = false ->
  validateNetwork env p w = (Throw (unsupported_error id), with_chainId (Some id) w).
Proof.
  intros Hn Hs. unfold validateNetwork, bind, ask, setChainId, modify.
  rewrite Hn. simpl. now rewrite Hs.
Qed.

Lemma validateNetwork_unreachable env p w id n rpcError :
  getNetwork (wallet w) = Ok id ->
  find_network env id = Some n ->
  getBlockNumber (wallet w) = Throw rpcError ->
  validateNetwork env p w =
    (Throw (Error ("Failed to connect to " +++ net_name n)), with_chainId (Some id) w).
Proof.
  intros Hn Hf Hb.
  assert (Hs : supported env id = true).
  { destruct (supported env id) eqn:E; [reflexivity |].
    destruct (find_network_unsupported env id E). congruence. }
  unfold validateNetwork, bind, ask, setChainId, modify. rewrite Hn. simpl.
  rewrite Hs, Hf. simpl. unfold try_catch, bind, ask. simpl. now rewrite Hb.
Qed.

Lemma validateNetwork_no_chain env p w e :
  getNetwork (wallet w) = Throw e -> validateNetwork env p w = (Throw e, w).
Proof. intros H. unfold validateNetwork, bind, ask. now rewrite H. Qed.

(** A fresh provider is validated and bound, as [handleChainChanged],
    [connectWallet], [switchNetwork] and [init] do, in a healthy wallet on
    a supported chain; [k] is what follows. *)
Lemma validate_and_bind_ok {B} env a w id (k : M B) :
  healthy_on id (wallet w) ->
  supported env id = true ->
  exists n,
    find_network env id = Some n
    /\ (validateNetwork env BrowserProvider ;;
        initializeContracts env BrowserProvider a ;; k) w =
       k (with_loadingStates (set_ls_contracts false (loadingStates w))
            (with_contracts (bound_contracts n a) (with_chainId (Some id) w))).
Proof.
  intros [Hn [[b Hb] Hg]] Hs.
  destruct (find_network_supported env id Hs) as [n [Hf [Hk _]]].
  exists n. split; [exact Hf |].
  erewrite bind_ok by (apply (validateNetwork_ok env _ w id b); assumption).
  erewrite bind_ok by (apply (initializeContracts_ok env _ a _ id n); assumption).
  reflexivity.
Qed.

(** X6: a chain-changed event for a supported chain, in a session that has
    a provider and an account, re-binds from what the provider reports,
    not from the event: when the wallet is on the supported chain [id]
    (the event's or another), the stored chain id becomes [id], both
    contracts are bound to the registry's addresses for [id] with the
    signer of the session's account, and "Network changed successfully" is
    shown. *)
Theorem handleChainChanged_rebinds (env : ImportMetaEnv) (n id : Z) (w : World) :
  supported env n = true ->
  provider w <> None ->
  account w <> "" ->
  healthy_on id (wallet w) ->
  supported env id = true ->
  let w' := exec (handleChainChanged env n) w in
  exists net,
    find_network env id = Some net
    /\ contracts w' = bound_contracts net (account w)
    /\ chainId w' = Some id
    /\ provider w' = Some BrowserProvider
    /\ account w' = account w
    /\ has_message "Network changed successfully" (toasts w') = true.
Proof.
  intros Hsn Hp Ha Hh Hs w'.
  destruct (validate_and_bind_ok env (account w)
              (with_provider (Some BrowserProvider) (with_chainId (Some n) w)) id
              (addToast "Network changed successfully" success) Hh Hs)
    as [net [Hf E]].
  exists net. split; [exact Hf |].
  assert (Ew : w' =
    exec (addToast "Network changed successfully" success)
      (with_loadingStates (set_ls_contracts false (loadingStates w))
         (with_contracts (bound_contracts net (account w))
            (with_chainId (Some id)
               (with_provider (Some BrowserProvider) (with_chainId (Some n) w)))))).
  { unfold w', exec, handleChainChanged.
    erewrite bind_ok by reflexivity. erewrite bind_ok by reflexivity.
    erewrite bind_ok by reflexivity. rewrite Hsn. cbn [negb].
    destruct (provider w) as [pv|]; [| now elim Hp].
    destruct (account w) as [|c s] eqn:Eacc; [now elim Ha |].
    erewrite try_catch_ok; [reflexivity |].
    erewrite bind_ok by reflexivity.
    etransitivity; [exact E | apply addToast_run]. }
  rewrite Ew. repeat split. apply addToast_shows.
Qed.

Lemma handleChainChanged_rebinds_witness :
  let w' :=
    steps scenario_env [WalletChanges (scenario_wallet 50); chainChanged 50]
      connected_world in
  contracts w' = bound_contracts (MAINNET scenario_env) "0x1111"
  /\ chainId w' = Some 50.
Proof.
  intros w'.
  destruct (handleChainChanged_rebinds scenario_env 50 50
              (with_wallet (scenario_wallet 50) connected_world))
    as [net [Hf [Hc [Hi _]]]].
  - reflexivity.
  - discriminate.
  - discriminate.
  - split; [reflexivity |]. split; [exists 4242; reflexivity | reflexivity].
  - reflexivity.
  - vm_compute in Hf. injection Hf as <-. split; [exact Hc | exact Hi].
Defined.

(** X7: a chain-changed event for a supported chain in a session without
    provider or without account only stores the chain id: nothing is
    bound, nothing is shown, the wallet is not asked. *)
Theorem handleChainChanged_idle (env : ImportMetaEnv) (n : Z) (w : World) :
  supported env n = true ->
  provider w = None \/ account w = "" ->
  exec (handleChainChanged env n) w = with_chainId (Some n) w.
Proof.
  intros Hs H. unfold exec, handleChainChanged.
  erewrite bind_ok by reflexivity. erewrite bind_ok by reflexivity.
  erewrite bind_ok by reflexivity. rewrite Hs. cbn [negb].
  destruct H as [H | H]; rewrite H.
  - reflexivity.
  - destruct (provider w); reflexivity.
Qed.

Lemma handleChainChanged_idle_witness :
  step scenario_env (chainChanged 50) unsupported_world
    = with_chainId (Some 50) unsupported_world.
Proof.
  apply (handleChainChanged_idle scenario_env 50 unsupported_world eq_refl).
  right. reflexivity.
Defined.

(* ------------------------------------------------------------------ *)
(** ** Connect *)

Lemma ask_ok {A} (f : Wallet -> Result A) (w : World) (a : A) :
  f (wallet w) = Ok a -> ask f w = (Ok a, w).
Proof. intros H. unfold ask. now rewrite H. Qed.

Lemma ask_throw {A} (f : Wallet -> Result A) (w : World) (e : JsError) :
  f (wallet w) = Throw e -> ask f w = (@Throw A e, w).
Proof. intros H. unfold ask. now rewrite H. Qed.

Lemma attempt_run {A B} (m : M A) (k : Result A -> M B) (w w' : World) (r : Result A) :
  m w = (r, w') -> bind (attempt m) k w = k r w'.
Proof. intros H. unfold bind, attempt. now rewrite H. Qed.

(** The world in which [connectWallet] reads the chain: the wallet
    loading flag is set, a provider is stored, the accounts were asked. *)
Lemma connectWallet_asks env w a rest :
  ethereum w = true ->
  eth_requestAccounts (wallet w) = Ok (a :: rest) ->
  connectWallet_try env
    (with_loadingStates (set_ls_wallet true (loadingStates w)) w)
  = (currentChainId <- ask getNetwork ;;
     if negb (supported env currentChainId) then
       setContracts no_contracts ;;
       setProvider None ;;
       s <- switchNetwork env "mainnet" FromConnectWallet ;;
       match s with
       | Some _ => ret Suspended
       | None => ret Completed
       end
     else
       validateNetwork env BrowserProvider ;;
       initializeContracts env BrowserProvider a ;;
       setAccount a ;;
       addToast "Wallet connected successfully!" success ;;
       ret Completed)
      (with_requests (requests w ++ [req_eth_requestAccounts])
         (with_provider (Some BrowserProvider)
            (with_loadingStates (set_ls_wallet true (loadingStates w)) w))).
Proof.
  intros Heth Hacc. unfold connectWallet_try.
  erewrite bind_ok by reflexivity. world_simpl. rewrite Heth. cbn [negb].
  erewrite bind_ok by reflexivity. erewrite bind_ok by reflexivity.
  erewrite bind_ok by (apply ask_ok; exact Hacc). reflexivity.
Qed.

(** X8: the connect button clicked with a wallet that grants accounts and
    is on a supported chain whose endpoint answers.  The session gets the
    first granted account, both contracts bound for it on that chain, the
    chain id and a provider; the wallet loading flag is cleared, "Wallet
    connected successfully!" is shown, and the only request sent to the
    wallet is [eth_requestAccounts]. *)
Theorem connectWallet_connects (env : ImportMetaEnv) (w : World) (a : string)
    (rest : list string) (id : Z) :
  ethereum w = true ->
  eth_requestAccounts (wallet w) = Ok (a :: rest) ->
  healthy_on id (wallet w) ->
  supported env id = true ->
  let w' := exec (connectWallet env) w in
  exists net,
    find_network env id = Some net
    /\ account w' = a
    /\ contracts w' = bound_contracts net a
    /\ chainId w' = Some id
    /\ provider w' = Some BrowserProvider
    /\ ls_wallet (loadingStates w') = false
    /\ requests w' = requests w ++ [req_eth_requestAccounts]
    /\ runs w' = runs w
    /\ has_message "Wallet connected successfully!" (toasts w') = true.
Proof.
  intros Heth Hacc Hh Hs w'.
  set (w1 := with_requests (requests w ++ [req_eth_requestAccounts])
               (with_provider (Some BrowserProvider)
                  (with_loadingStates (set_ls_wallet true (loadingStates w)) w))).
  destruct (validate_and_bind_ok env a w1 id
              (setAccount a ;;
               addToast "Wallet connected successfully!" success ;;
               ret Completed) Hh Hs) as [net [Hf E]].
  exists net. split; [exact Hf |].
  assert (Ew : w' =
    exec connectWallet_finally
      (exec (addToast "Wallet connected successfully!" success)
         (with_account a
            (with_loadingStates (set_ls_contracts false (loadingStates w1))
               (with_contracts (bound_contracts net a)
                  (with_chainId (Some id) w1)))))).
  { unfold w', exec, connectWallet. erewrite bind_ok by reflexivity.
    erewrite attempt_run; cycle 1.
    { unfold setLoadingStates, modify.
      rewrite (connectWallet_asks env w a rest Heth Hacc).
      fold w1. destruct Hh as [Hn _].
      erewrite bind_ok by (apply ask_ok; exact Hn). rewrite Hs. cbn [negb].
      rewrite E. reflexivity. }
    reflexivity. }
  rewrite Ew. repeat split. apply addToast_shows.
Qed.

Lemma connectWallet_connects_witness :
  let w' :=
    steps scenario_env [WalletChanges (scenario_wallet 51); ClickConnectWallet]
      unsupported_world in
  account w' = "0x1111"
  /\ contracts w' = bound_contracts (APOTHEM scenario_env) "0x1111".
Proof.
  intros w'.
  destruct (connectWallet_connects scenario_env
              (with_wallet (scenario_wallet 51) unsupported_world) "0x1111" [] 51)
    as [net [Hf [Ha [Hc _]]]].
  - reflexivity.
  - reflexivity.
  - split; [reflexivity |]. split; [exists 4242; reflexivity | reflexivity].
  - reflexivity.
  - vm_compute in Hf. injection Hf as <-. split; [exact Ha | exact Hc].
Defined.

(** [handleError] touches the queue, its timers, the random tape and the
    error key, and nothing else. *)
Lemma handleError_frame (e : JsError) (context : string) (w : World) :
  let w' := exec (handleError e context) w in
  provider w' = provider w /\ contracts w' = contracts w
  /\ account w' = account w /\ chainId w' = chainId w
  /\ loadingStates w' = loadingStates w /\ listeners w' = listeners w
  /\ requests w' = requests w /\ runs w' = runs w /\ clock w' = clock w
  /\ wallet w' = wallet w /\ ethereum w' = ethereum w.
Proof.
  unfold exec, handleError, bind, Date_now, gets. simpl.
  destruct (lastErrorKey w) as [k|]; [destruct (String.eqb k _) |];
    repeat split.
Qed.

(** After [handleError] the stored key is the key of the error. *)
Lemma handleError_key (e : JsError) (context : string) (w : World) :
  lastErrorKey (exec (handleError e context) w) = Some (errorKey_of e (clock w)).
Proof.
  destruct (lastErrorKey w) as [k|] eqn:Hk.
  - destruct (String.eqb k (errorKey_of e (clock w))) eqn:E.
    + apply String.eqb_eq in E. subst k.
      unfold exec. now rewrite (handleError_repeat e context w Hk).
    + unfold exec, handleError, bind, Date_now, gets. simpl.
      rewrite Hk, E. reflexivity.
  - unfold exec, handleError, bind, Date_now, gets. simpl.
    rewrite Hk. reflexivity.
Qed.

(** X9: when the chain is supported and its endpoint answers but no signer
    is handed out, [connectWallet] still completes as a success: the
    failed binding is reported by [initializeContracts] itself and not
    thrown, so the account is set and "Wallet connected successfully!" is
    shown while both contracts are [null]. *)
Theorem connectWallet_announces_success_unbound (env : ImportMetaEnv) (w : World)
    (a : string) (rest : list string) (id b : Z) (e : JsError) :
  ethereum w = true ->
  eth_requestAccounts (wallet w) = Ok (a :: rest) ->
  getNetwork (wallet w) = Ok id ->
  supported env id = true ->
  getBlockNumber (wallet w) = Ok b ->
  getSigner_error (wallet w) = Some e ->
  let w' := exec (connectWallet env) w in
  account w' = a
  /\ contracts w' = no_contracts
  /\ provider w' = Some BrowserProvider
  /\ chainId w' = Some id
  /\ ls_wallet (loadingStates w') = false
  /\ has_message "Wallet connected successfully!" (toasts w') = true.
Proof.
  intros Heth Hacc Hn Hs Hb Hg w'.
  set (w1 := with_requests (requests w ++ [req_eth_requestAccounts])
               (with_provider (Some BrowserProvider)
                  (with_loadingStates (set_ls_wallet true (loadingStates w)) w))).
  assert (Hfail : binding_failure env (wallet (with_chainId (Some id) w1)) = Some e).
  { change (wallet (with_chainId (Some id) w1)) with (wallet w).
    unfold binding_failure. rewrite Hn.
    destruct (find_network_supported env id Hs) as [n [_ [Hk _]]]. now rewrite Hk. }
  set (w2 := exec (handleError e "initializeContracts") (with_chainId (Some id) w1)).
  assert (Ew : w' =
    exec connectWallet_finally
      (exec (addToast "Wallet connected successfully!" success)
         (with_account a
            (exec (setLoadingStates (set_ls_contracts false))
               (exec (setContracts no_contracts) w2))))).
  { unfold w', exec, connectWallet. erewrite bind_ok by reflexivity.
    erewrite attempt_run; cycle 1.
    { unfold setLoadingStates, modify.
      rewrite (connectWallet_asks env w a rest Heth Hacc). fold w1.
      erewrite bind_ok by (apply ask_ok; exact Hn). rewrite Hs. cbn [negb].
      erewrite bind_ok by (apply (validateNetwork_ok env _ w1 id b); assumption).
      erewrite bind_ok
        by (apply (initializeContracts_fail env _ a _ e); exact Hfail).
      reflexivity. }
    reflexivity. }
  destruct (handleError_frame e "initializeContracts" (with_chainId (Some id) w1))
    as [Hp [_ [_ [Hc _]]]].
  fold w2 in Hp, Hc.
  rewrite Ew. split; [reflexivity |]. split; [reflexivity |].
  split; [exact Hp |]. split; [exact Hc |]. split; [reflexivity |].
  apply addToast_shows.
Qed.

Lemma connectWallet_announces_success_unbound_witness :
  let wl :=
    {| getNetwork := Ok 50; getBlockNumber := Ok 4242;
       getSigner_error := Some (Error "invalid account");
       eth_requestAccounts := Ok ["0x1111"]; eth_accounts := Ok [] |} in
  let w' := exec (connectWallet scenario_env) (with_wallet wl unsupported_world) in
  account w' = "0x1111" /\ contracts w' = no_contracts
  /\ has_message "Wallet connected successfully!" (toasts w') = true.
Proof.
  intros wl w'.
  destruct (connectWallet_announces_success_unbound scenario_env
              (with_wallet wl unsupported_world) "0x1111" [] 50 4242
              (Error "invalid account"))
    as [Ha [Hc [_ [_ [_ Ht]]]]]; try reflexivity.
  split; [exact Ha | split; [exact Hc | exact Ht]].
Defined.

Lemma connectWallet_try_fails env w e :
  connect_failure env w = Some e ->
  exists wmid,
    connectWallet_try env (with_loadingStates (set_ls_wallet true (loadingStates w)) w)
      = (Throw e, wmid)
    /\ clock wmid = clock w /\ runs wmid = runs w.
Proof.
  unfold connect_failure. intros H.
  destruct (ethereum w) eqn:Heth; cbn [negb] in H.
  - destruct (eth_requestAccounts (wallet w)) as [[|a rest]|e0] eqn:Hacc.
    + injection H as <-. eexists. split.
      { unfold connectWallet_try. erewrite bind_ok by reflexivity.
        world_simpl. rewrite Heth. cbn [negb].
        erewrite bind_ok by reflexivity. erewrite bind_ok by reflexivity.
        erewrite bind_ok by (apply ask_ok; exact Hacc). reflexivity. }
      split; reflexivity.
    + rewrite (connectWallet_asks env w a rest Heth Hacc).
      destruct (getNetwork (wallet w)) as [id|e0] eqn:Hn.
      * destruct (find_network env id) as [n|] eqn:Hf; [| discriminate].
        destruct (getBlockNumber (wallet w)) as [b|rpcError] eqn:Hb; [discriminate |].
        injection H as <-.
        assert (Hs : supported env id = true).
        { destruct (supported env id) eqn:E; [reflexivity |].
          destruct (find_network_unsupported env id E). congruence. }
        eexists. split.
        { erewrite bind_ok by (apply ask_ok; exact Hn). rewrite Hs. cbn [negb].
          erewrite bind_throw
            by (apply (validateNetwork_unreachable env _ _ id n rpcError); assumption).
          reflexivity. }
        split; reflexivity.
      * injection H as <-. eexists. split.
        { erewrite bind_throw by (apply ask_throw; exact Hn). reflexivity. }
        split; reflexivity.
    + injection H as <-. eexists. split.
      { unfold connectWallet_try. erewrite bind_ok by reflexivity.
        world_simpl. rewrite Heth. cbn [negb].
        erewrite bind_ok by reflexivity. erewrite bind_ok by reflexivity.
        erewrite bind_throw by (apply ask_throw; exact Hacc). reflexivity. }
      split; reflexivity.
  - injection H as <-. eexists. split.
    { unfold connectWallet_try. erewrite bind_ok by reflexivity.
      world_simpl. rewrite Heth. reflexivity. }
    split; reflexivity.
Qed.

(** X10: however [connectWallet] fails before binding (no wallet, the
    account request refused or granting nothing, a provider that does not
    tell its chain, a supported chain whose endpoint does not answer), it
    ends in the same reset: the error went through [handleError], the
    account is empty, both contracts are [null], the provider is dropped,
    the wallet loading flag is cleared, and no switch was started. *)
Theorem connectWallet_failure_resets (env : ImportMetaEnv) (w : World) (e : JsError) :
  connect_failure env w = Some e ->
  let w' := exec (connectWallet env) w in
  account w' = ""
  /\ contracts w' = no_contracts
  /\ provider w' = None
  /\ ls_wallet (loadingStates w') = false
  /\ runs w' = runs w
  /\ lastErrorKey w' = Some (errorKey_of e (clock w)).
Proof.
  intros H w'. destruct (connectWallet_try_fails env w e H) as [wmid [E [Hclock Hruns]]].
  assert (Ew : w' =
    exec connectWallet_finally
      (with_account ""
         (with_provider None
            (with_contracts no_contracts (exec (handleError e "connectWallet") wmid))))).
  { unfold w', exec, connectWallet. erewrite bind_ok by reflexivity.
    erewrite attempt_run by exact E.
    destruct (handleError_run e "connectWallet" wmid) as [r Hr].
    unfold connectWallet_catch. erewrite bind_ok; cycle 1.
    { erewrite bind_ok by exact Hr. reflexivity. }
    reflexivity. }
  destruct (handleError_frame e "connectWallet" wmid)
    as [_ [_ [_ [_ [_ [_ [_ [Hr _]]]]]]]].
  rewrite Ew. repeat split.
  - change (runs (exec (handleError e "connectWallet") wmid) = runs w). congruence.
  - change (lastErrorKey (exec (handleError e "connectWallet") wmid)
            = Some (errorKey_of e (clock w))).
    rewrite handleError_key. now rewrite Hclock.
Qed.

Lemma connectWallet_failure_resets_witness :
  let refusing :=
    {| getNetwork := Ok 50; getBlockNumber := Ok 4242; getSigner_error := None;
       eth_requestAccounts :=
         Throw {| err_code := Some 4001; err_message := Some "User rejected" |};
       eth_accounts := Ok [] |} in
  let w' := step scenario_env ClickConnectWallet
              (with_wallet refusing unsupported_world) in
  account w' = "" /\ contracts w' = no_contracts /\ provider w' = None
  /\ ls_wallet (loadingStates w') = false.
Proof.
  intros refusing w'.
  destruct (connectWallet_failure_resets scenario_env
              (with_wallet refusing unsupported_world)
              {| err_code := Some 4001; err_message := Some "User rejected" |})
    as [H1 [H2 [H3 [H4 _]]]].
  - reflexivity.
  - split; [exact H1 | split; [exact H2 | split; [exact H3 | exact H4]]].
Defined.

(* ------------------------------------------------------------------ *)
(** ** Pre- and postconditions of handlers *)

Section Hoare.
Context {A : Type}.

Lemma hoare_ret (P : World -> Prop) (a : A) (E : World -> Prop) :
  hoare P (ret a) (fun _ => P) E.
Proof. intros w H. exact H. Qed.

Lemma hoare_throw (P : World -> Prop) (e : JsError) (Q : A -> World -> Prop) :
  hoare P (@throw A e) Q P.
Proof. intros w H. exact H. Qed.

Lemma hoare_conseq (P P' : World -> Prop) (Q Q' : A -> World -> Prop)
    (E E' : World -> Prop) (m : M A) :
  hoare P m Q E ->
  (forall w, P' w -> P w) ->
  (forall a w, Q a w -> Q' a w) ->
  (forall w, E w -> E' w) ->
  hoare P' m Q' E'.
Proof.
  intros H HP HQ HE w Hw. specialize (H w (HP w Hw)).
  destruct (m w) as [[a|e] w']; [apply HQ, H | apply HE, H].
Qed.

Lemma hoare_bind {B} (P : World -> Prop) (Q : A -> World -> Prop)
    (R : B -> World -> Prop) (E : World -> Prop) (m : M A) (k : A -> M B) :
  hoare P m Q E -> (forall a, hoare (Q a) (k a) R E) -> hoare P (bind m k) R E.
Proof.
  intros Hm Hk w Hw. unfold bind. specialize (Hm w Hw).
  destruct (m w) as [[a|e] w']; [apply (Hk a w' Hm) | exact Hm].
Qed.

Lemma hoare_try_catch (P : World -> Prop) (Q : A -> World -> Prop)
    (E' E : World -> Prop) (body : M A) (handler : JsError -> M A) :
  hoare P body Q E' -> (forall e, hoare E' (handler e) Q E) ->
  hoare P (try_catch body handler) Q E.
Proof.
  intros Hb Hh w Hw. unfold try_catch. specialize (Hb w Hw).
  destruct (body w) as [[a|e] w']; [exact Hb | apply (Hh e w' Hb)].
Qed.

Lemma hoare_attempt (P : World -> Prop) (Q : A -> World -> Prop) (E E0 : World -> Prop)
    (m : M A) :
  hoare P m Q E ->
  hoare P (attempt m)
    (fun r w => match r with Ok a => Q a w | Throw _ => E w end) E0.
Proof.
  intros Hm w Hw. unfold attempt. specialize (Hm w Hw).
  destruct (m w) as [[a|e] w']; exact Hm.
Qed.

(** A handler that keeps [P] and returns. *)
Lemma hoare_keeps_nothrow (P E : World -> Prop) (m : M A) :
  keeps P m -> nothrow m -> hoare P m (fun _ => P) E.
Proof.
  intros Hk Hn w Hw. specialize (Hk w Hw). destruct (Hn w) as [a Ha].
  destruct (m w) as [[a'|e] w']; [exact Hk | discriminate].
Qed.

Lemma hoare_keeps (P : World -> Prop) (m : M A) :
  keeps P m -> hoare P m (fun _ => P) P.
Proof.
  intros Hk w Hw. specialize (Hk w Hw). destruct (m w) as [[a'|e] w']; exact Hk.
Qed.

Lemma hoare_exec (P : World -> Prop) (Q : World -> Prop) (m : M A) (w : World) :
  hoare P m (fun _ => Q) Q -> P w -> Q (exec m w).
Proof.
  intros H Hw. unfold exec. specialize (H w Hw).
  destruct (m w) as [[a|e] w']; exact H.
Qed.
End Hoare.

Lemma hoare_modify (P Q E : World -> Prop) (f : World -> World) :
  (forall w, P w -> Q (f w)) -> hoare P (modify f) (fun _ => Q) E.
Proof. intros H w Hw. apply H, Hw. Qed.

Lemma hoare_gets {A} (P E : World -> Prop) (f : World -> A) :
  hoare P (gets f) (fun a w => P w /\ a = f w) E.
Proof. intros w Hw. split; [exact Hw | reflexivity]. Qed.

Lemma hoare_ask {A} (P : World -> Prop) (f : Wallet -> Result A) :
  hoare P (ask f) (fun a w => P w /\ f (wallet w) = Ok a) P.
Proof.
  intros w Hw. unfold ask. destruct (f (wallet w)) as [a|e];
    [split; [exact Hw | reflexivity] | exact Hw].
Qed.

Lemma nothrow_modify (f : World -> World) : nothrow (modify f).
Proof. intros w. now exists tt. Qed.

Lemma nothrow_addToast message type : nothrow (addToast message type).
Proof. intros w. now exists tt. Qed.

Lemma nothrow_handleError e context : nothrow (handleError e context).
Proof.
  intros w. destruct (handleError_never_throws e context w) as [r H].
  exists r. now rewrite H.
Qed.

(* ------------------------------------------------------------------ *)
(** ** Handlers that leave the contracts, the provider and the chain id
       alone *)

Section Frame.
Variable P : World -> Prop.
Hypothesis HP : Framed P.

Lemma frame_setToasts f : keeps P (setToasts f).
Proof. apply keeps_modify. intros w H. now apply fr_toasts. Qed.
Lemma frame_setLoadingStates f : keeps P (setLoadingStates f).
Proof. apply keeps_modify. intros w H. now apply fr_loadingStates. Qed.
Lemma frame_setAccount v : keeps P (setAccount v).
Proof. apply keeps_modify. intros w H. now apply fr_account. Qed.
Lemma frame_lastErrorKey v : keeps P (modify (with_lastErrorKey v)).
Proof. apply keeps_modify. intros w H. now apply fr_lastErrorKey. Qed.
Lemma frame_Date_now : keeps P Date_now.
Proof. apply keeps_gets. Qed.
Lemma frame_Math_random : keeps P Math_random.
Proof. intros w H. exact (fr_random_pos P HP (S (random_pos w)) w H). Qed.
Lemma frame_setTimeout a d : keeps P (setTimeout a d).
Proof. apply keeps_modify. intros w H. now apply fr_timers. Qed.
Lemma frame_clearTimeout a : keeps P (clearTimeout a).
Proof. apply keeps_modify. intros w H. now apply fr_timers. Qed.
Lemma frame_ethereum_on l : keeps P (ethereum_on l).
Proof. apply keeps_modify. intros w H. now apply fr_listeners. Qed.
Lemma frame_ethereum_removeListener l : keeps P (ethereum_removeListener l).
Proof. apply keeps_modify. intros w H. now apply fr_listeners. Qed.
Lemma frame_ethereum_request r : keeps P (ethereum_request r).
Proof. apply keeps_modify. intros w H. now apply fr_requests. Qed.
Lemma frame_update_run i f : keeps P (update_run i f).
Proof. apply keeps_modify. intros w H. now apply fr_runs. Qed.
Lemma frame_get_run i : keeps P (get_run i).
Proof. apply keeps_gets. Qed.

Hint Resolve frame_setToasts frame_setLoadingStates frame_setAccount
  frame_lastErrorKey frame_Date_now frame_Math_random frame_setTimeout
  frame_clearTimeout frame_ethereum_on frame_ethereum_removeListener
  frame_ethereum_request frame_update_run frame_get_run : keeps.

Lemma frame_addToast message type : keeps P (addToast message type).
Proof. unfold addToast. keeps_split. Qed.
Hint Resolve frame_addToast : keeps.

Lemma frame_removeToast id : keeps P (removeToast id).
Proof. unfold removeToast. keeps_split. Qed.

Lemma frame_handleError e context : keeps P (handleError e context).
Proof. unfold handleError. keeps_split. Qed.

Lemma frame_handleAccountsChanged accounts : keeps P (handleAccountsChanged accounts).
Proof. unfold handleAccountsChanged. keeps_split. Qed.

Lemma frame_connectWallet_finally : keeps P connectWallet_finally.
Proof. unfold connectWallet_finally. keeps_split. Qed.
End Frame.

(* ------------------------------------------------------------------ *)
(** ** Contracts are bound only with a provider and on a supported chain *)

Lemma Framed_unbound : Framed unbound.
Proof. constructor; intros v w H; exact H. Qed.

Lemma Framed_consistent env : Framed (consistent env).
Proof. constructor; intros v w H; exact H. Qed.

Lemma keeps_of_hoare {A} (P : World -> Prop) (m : M A) :
  hoare P m (fun _ => P) P -> keeps P m.
Proof.
  intros H w Hw. specialize (H w Hw). destruct (m w) as [[a|e] w']; exact H.
Qed.

Section Consistent.
Variable env : ImportMetaEnv.

Let I : World -> Prop := consistent env.
Let N : World -> Prop := unbound.
Let T : World -> Prop := fun _ => True.

Lemma unbound_consistent w : N w -> I w.
Proof. intros H. left. exact H. Qed.

(** *** Handlers that bind nothing keep the contracts unbound *)

Lemma unbound_setProvider v : keeps N (setProvider v).
Proof. apply keeps_modify. intros w H. exact H. Qed.
Lemma unbound_setChainId v : keeps N (setChainId v).
Proof. apply keeps_modify. intros w H. exact H. Qed.
Lemma unbound_setContracts_none : keeps N (setContracts no_contracts).
Proof. apply keeps_modify. intros w H. reflexivity. Qed.
Lemma unbound_setAccount v : keeps N (setAccount v).
Proof. apply frame_setAccount, Framed_unbound. Qed.
Lemma unbound_setLoadingStates f : keeps N (setLoadingStates f).
Proof. apply frame_setLoadingStates, Framed_unbound. Qed.
Lemma unbound_update_run i f : keeps N (update_run i f).
Proof. apply frame_update_run, Framed_unbound. Qed.
Lemma unbound_addToast m t : keeps N (addToast m t).
Proof. apply frame_addToast, Framed_unbound. Qed.
Lemma unbound_handleError e c : keeps N (handleError e c).
Proof. apply frame_handleError, Framed_unbound. Qed.
Lemma unbound_setTimeout a d : keeps N (setTimeout a d).
Proof. apply frame_setTimeout, Framed_unbound. Qed.
Lemma unbound_ethereum_on l : keeps N (ethereum_on l).
Proof. apply frame_ethereum_on, Framed_unbound. Qed.
Lemma unbound_ethereum_request r : keeps N (ethereum_request r).
Proof. apply frame_ethereum_request, Framed_unbound. Qed.
Lemma unbound_with_runs f : keeps N (modify (fun w => with_runs (f w) w)).
Proof. apply keeps_modify. intros w H. exact H. Qed.

Hint Resolve unbound_setProvider unbound_setChainId unbound_setContracts_none
  unbound_setAccount unbound_setLoadingStates unbound_update_run unbound_addToast
  unbound_handleError unbound_setTimeout unbound_ethereum_on
  unbound_ethereum_request unbound_with_runs : keeps.

Lemma unbound_validateNetwork p : keeps N (validateNetwork env p).
Proof. unfold validateNetwork. keeps_split. Qed.

Lemma unbound_connectWallet_resumed r : keeps N (connectWallet_resumed r).
Proof.
  unfold connectWallet_resumed, connectWallet_catch, connectWallet_finally.
  keeps_split.
Qed.
Hint Resolve unbound_connectWallet_resumed : keeps.

Lemma unbound_switchNetwork_settle i caller r : keeps N (switchNetwork_settle i caller r).
Proof. unfold switchNetwork_settle. keeps_split. Qed.
Hint Resolve unbound_switchNetwork_settle : keeps.

Lemma unbound_switchNetwork networkType caller :
  keeps N (switchNetwork env networkType caller).
Proof. unfold switchNetwork. keeps_split. Qed.

(** *** Blocks that end unbound wherever they start *)

Lemma reset_setContracts {A} (k : M A) :
  keeps N k -> hoare T (setContracts no_contracts ;; k) (fun _ => N) N.
Proof.
  intros Hk. eapply hoare_bind.
  - apply (hoare_modify T N N). intros w _. reflexivity.
  - intro. apply hoare_keeps, Hk.
Qed.

Lemma reset_after {A B} (m : M A) (k : A -> M B) :
  nothrow m -> (forall a, hoare T (k a) (fun _ => N) N) ->
  hoare T (bind m k) (fun _ => N) N.
Proof.
  intros Hm Hk. eapply hoare_bind.
  - apply (hoare_keeps_nothrow T N); [intros w _; exact Logic.I | exact Hm].
  - exact Hk.
Qed.

Lemma reset_connectWallet_catch e : hoare T (connectWallet_catch e) (fun _ => N) N.
Proof.
  unfold connectWallet_catch. apply reset_after; [apply nothrow_handleError |].
  intro. apply reset_setContracts. keeps_split.
Qed.

Lemma reset_switchNetwork_catch i caller e :
  hoare T (switchNetwork_catch i caller e) (fun _ => N) N.
Proof.
  unfold switchNetwork_catch. apply reset_after; [apply nothrow_handleError |].
  intro. apply reset_setContracts. keeps_split.
Qed.

Lemma reset_chain_catch e :
  hoare T (handleError e "handleChainChanged" ;;
           setContracts no_contracts ;; setProvider None) (fun _ => N) N.
Proof.
  apply reset_after; [apply nothrow_handleError |].
  intro. apply reset_setContracts. keeps_split.
Qed.

(** *** Validation, then binding *)

Lemma hoare_validateNetwork p :
  hoare (fun w => provider w <> None) (validateNetwork env p)
    (fun _ => validated env) T.
Proof.
  intros w Hp. destruct (getNetwork (wallet w)) as [id|e] eqn:Hn.
  - destruct (supported env id) eqn:Hs.
    + destruct (find_network_supported env id Hs) as [n [Hf _]].
      destruct (getBlockNumber (wallet w)) as [b|rpcError] eqn:Hb.
      * rewrite (validateNetwork_ok env p w id b Hn Hs Hb).
        split; [exact Hp |]. exists id. repeat split; assumption.
      * rewrite (validateNetwork_unreachable env p w id n rpcError Hn Hf Hb).
        exact Logic.I.
    + rewrite (validateNetwork_unsupported env p w id Hn Hs). exact Logic.I.
  - rewrite (validateNetwork_no_chain env p w e Hn). exact Logic.I.
Qed.

Lemma hoare_initializeContracts p a (E : World -> Prop) :
  hoare (validated env) (initializeContracts env p a) (fun _ => I) E.
Proof.
  intros w [Hp [id [Hn [Hc Hs]]]].
  destruct (binding_failure env (wallet w)) as [e|] eqn:Hb.
  - rewrite (initializeContracts_fail env p a w e Hb). left. reflexivity.
  - unfold binding_failure in Hb. rewrite Hn in Hb.
    destruct (find_network_supported env id Hs) as [n [_ [Hk [_ Hin]]]].
    rewrite Hk in Hb.
    rewrite (initializeContracts_ok env p a w id n Hn Hk Hb).
    right. split; [exact Hp |]. split; [exists id; split; assumption |].
    exists n, a. split; [exact Hin | reflexivity].
Qed.

Lemma consistent_addToast m t : keeps I (addToast m t).
Proof. apply frame_addToast, Framed_consistent. Qed.
Lemma consistent_handleError e c : keeps I (handleError e c).
Proof. apply frame_handleError, Framed_consistent. Qed.
Lemma consistent_setLoadingStates f : keeps I (setLoadingStates f).
Proof. apply frame_setLoadingStates, Framed_consistent. Qed.
Lemma consistent_setAccount v : keeps I (setAccount v).
Proof. apply frame_setAccount, Framed_consistent. Qed.
Lemma consistent_update_run i f : keeps I (update_run i f).
Proof. apply frame_update_run, Framed_consistent. Qed.
Lemma consistent_ethereum_request r : keeps I (ethereum_request r).
Proof. apply frame_ethereum_request, Framed_consistent. Qed.
Lemma consistent_get_run i : keeps I (get_run i).
Proof. apply keeps_gets. Qed.
Lemma consistent_clearTimeout a : keeps I (clearTimeout a).
Proof. apply frame_clearTimeout, Framed_consistent. Qed.
Lemma consistent_removeListener l : keeps I (ethereum_removeListener l).
Proof. apply frame_ethereum_removeListener, Framed_consistent. Qed.

Lemma consistent_setProvider_some p : keeps I (setProvider (Some p)).
Proof.
  apply keeps_modify. intros w [H | [_ H]]; [left; exact H | right].
  split; [discriminate | exact H].
Qed.

Lemma consistent_setChainId_supported n :
  supported env n = true -> keeps I (setChainId n).
Proof.
  intros Hs. apply keeps_modify. intros w [H | [Hp [_ H]]]; [left; exact H | right].
  split; [exact Hp |]. split; [exists n; split; [reflexivity | exact Hs] | exact H].
Qed.

Hint Resolve consistent_addToast consistent_handleError consistent_setLoadingStates
  consistent_setAccount consistent_update_run consistent_ethereum_request
  consistent_get_run consistent_clearTimeout consistent_removeListener
  consistent_setProvider_some : keeps.

(** A fresh provider, validated and bound, then [k]: consistent if it
    returns, wherever it starts. *)
Lemma hoare_fresh_bind {B} a (k : M B) :
  hoare I k (fun _ => I) T ->
  hoare T (setProvider (Some BrowserProvider) ;;
           validateNetwork env BrowserProvider ;;
           initializeContracts env BrowserProvider a ;; k) (fun _ => I) T.
Proof.
  intros Hk. eapply hoare_bind.
  - apply (hoare_modify T (fun w => provider w <> None) T). intros w _. discriminate.
  - intro. eapply hoare_bind; [apply hoare_validateNetwork |].
    intro. apply (hoare_bind (validated env) (fun _ => I)).
    + apply hoare_initializeContracts.
    + intro. exact Hk.
Qed.
(** *** Changing the pre- and postconditions *)

Lemma hoare_from {A} (P : World -> Prop) (m : M A) Q E :
  hoare T m Q E -> hoare P m Q E.
Proof. intros H w _. exact (H w Logic.I). Qed.

Lemma hoare_exc_any {A} (P : World -> Prop) (m : M A) Q E :
  hoare P m Q E -> hoare P m Q T.
Proof. intros H w Hw. specialize (H w Hw). destruct (m w) as [[a|e] w']; [exact H | exact Logic.I]. Qed.

Lemma hoare_reset {A} (P : World -> Prop) (m : M A) :
  hoare T m (fun _ => N) N -> hoare P m (fun _ => I) I.
Proof.
  intros H w _. specialize (H w Logic.I).
  destruct (m w) as [[a|e] w']; apply unbound_consistent, H.
Qed.

Lemma hoare_keeps_N {A} (m : M A) : keeps N m -> hoare N m (fun _ => I) I.
Proof.
  intros H w Hw. specialize (H w Hw).
  destruct (m w) as [[a|e] w']; apply unbound_consistent, H.
Qed.

Lemma hoare_try_finally {A} (P Q E : World -> Prop) (body : M A) (fin : M unit) :
  hoare P body (fun _ => Q) E -> keeps Q fin -> keeps E fin ->
  hoare P (try_finally body fin) (fun _ => Q) E.
Proof.
  intros Hb HQ HE w Hw. unfold try_finally. specialize (Hb w Hw).
  destruct (body w) as [[a|e] w']; [apply HQ, Hb | apply HE, Hb].
Qed.

(** *** The handlers keep the session consistent *)

Lemma consistent_handleChainChanged n : keeps I (handleChainChanged env n).
Proof.
  apply keeps_of_hoare. unfold handleChainChanged.
  apply (hoare_bind I (fun _ => I)); [apply hoare_keeps, keeps_gets | intro prov].
  apply (hoare_bind I (fun _ => I)); [apply hoare_keeps, keeps_gets | intro acct].
  destruct (supported env n) eqn:Hs; cbn [negb].
  - apply (hoare_bind I (fun _ => I));
      [apply hoare_keeps, consistent_setChainId_supported, Hs | intro].
    apply (hoare_try_catch I (fun _ => I) T I).
    + destruct prov as [pv|]; [destruct acct as [|c s] |].
      * apply hoare_exc_any with (E := I), hoare_keeps, keeps_ret.
      * apply hoare_from, hoare_fresh_bind.
        apply hoare_keeps_nothrow; [apply consistent_addToast | apply nothrow_addToast].
      * apply hoare_exc_any with (E := I), hoare_keeps, keeps_ret.
    + intro e. apply hoare_reset, reset_chain_catch.
  - apply (hoare_bind I (fun _ => T));
      [apply hoare_modify; intros; exact Logic.I | intro].
    apply (hoare_try_catch T (fun _ => I) T I).
    + apply hoare_exc_any with (E := I), hoare_reset, reset_setContracts.
      keeps_split.
    + intro e. apply hoare_reset, reset_chain_catch.
Qed.

Lemma consistent_connectWallet_resumed r : keeps I (connectWallet_resumed r).
Proof.
  apply keeps_of_hoare. destruct r as [[]|err]; simpl.
  - apply hoare_keeps, frame_connectWallet_finally, Framed_consistent.
  - apply hoare_reset.
    apply (hoare_bind T (fun _ => N)); [apply reset_connectWallet_catch | intro].
    apply hoare_keeps. unfold connectWallet_finally. keeps_split.
Qed.
Hint Resolve consistent_connectWallet_resumed : keeps.

Lemma consistent_switchNetwork_settle i caller r :
  keeps I (switchNetwork_settle i caller r).
Proof. unfold switchNetwork_settle. keeps_split. Qed.
Hint Resolve consistent_switchNetwork_settle : keeps.

Lemma consistent_switchNetwork_catch i caller e :
  keeps I (switchNetwork_catch i caller e).
Proof. apply keeps_of_hoare, hoare_reset, reset_switchNetwork_catch. Qed.
Hint Resolve consistent_switchNetwork_catch : keeps.

Lemma consistent_switchNetwork_confirmed i run :
  keeps I (switchNetwork_confirmed env i run).
Proof.
  apply keeps_of_hoare. unfold switchNetwork_confirmed.
  apply (hoare_bind I (fun r w => match r with Ok _ => I w | Throw _ => T w end)).
  - apply hoare_attempt.
    apply (hoare_bind I (fun _ => I)).
    + destruct (run_account run) as [|c s].
      * apply hoare_exc_any with (E := I), hoare_keeps, keeps_ret.
      * apply hoare_from, hoare_fresh_bind.
        apply hoare_exc_any with (E := I), hoare_keeps, keeps_ret.
    + intro. apply hoare_keeps_nothrow;
        [apply consistent_addToast | apply nothrow_addToast].
  - intros [[]|e].
    + apply hoare_keeps, consistent_switchNetwork_settle.
    + apply hoare_reset, reset_switchNetwork_catch.
Qed.
Hint Resolve consistent_switchNetwork_confirmed : keeps.

Lemma consistent_await_networkSwitchPromise i :
  keeps I (await_networkSwitchPromise env i).
Proof. unfold await_networkSwitchPromise. keeps_split. Qed.
Hint Resolve consistent_await_networkSwitchPromise : keeps.

Lemma consistent_settle_promise i outcome : keeps I (settle_promise env i outcome).
Proof. unfold settle_promise. keeps_split. Qed.
Hint Resolve consistent_settle_promise : keeps.

Lemma consistent_run_chainChangeHandler i n : keeps I (run_chainChangeHandler env i n).
Proof. unfold run_chainChangeHandler. keeps_split. Qed.

Lemma consistent_request_answered i r : keeps I (request_answered env i r).
Proof. unfold request_answered. keeps_split. Qed.

Lemma consistent_emit n ls : keeps I (emit env n ls).
Proof.
  induction ls as [|l ls IH]; simpl; [apply keeps_ret |].
  apply keeps_bind; [| intro; exact IH].
  destruct l; simpl;
    [apply consistent_handleChainChanged | apply consistent_run_chainChangeHandler].
Qed.

Lemma consistent_run_timer a : keeps I (run_timer env a).
Proof.
  destruct a; simpl; [| unfold run_switch_timeout]; keeps_split.
  apply frame_setToasts, Framed_consistent.
Qed.

Lemma consistent_handleLogout : keeps I handleLogout.
Proof. intros w _. left. reflexivity. Qed.

Lemma consistent_switchNetwork networkType caller :
  keeps I (switchNetwork env networkType caller).
Proof.
  intros w H. destruct (ethereum w) eqn:Heth.
  - rewrite (switchNetwork_start env networkType caller w Heth). left. reflexivity.
  - unfold switchNetwork, bind, gets. simpl. rewrite Heth. exact H.
Qed.

Lemma hoare_connectWallet_try : hoare I (connectWallet_try env) (fun _ => I) T.
Proof.
  unfold connectWallet_try.
  apply (hoare_bind I (fun _ => I)).
  { apply hoare_exc_any with (E := I), hoare_keeps, keeps_gets. }
  intros eth. destruct (negb eth).
  { apply hoare_exc_any with (E := I), hoare_throw. }
  apply (hoare_bind I (fun _ w => provider w <> None)).
  { apply hoare_modify. intros w _. discriminate. }
  intro. apply (hoare_bind _ (fun _ w => provider w <> None)).
  { apply hoare_modify. intros w H. exact H. }
  intro. apply (hoare_bind _ (fun _ w => provider w <> None)).
  { apply hoare_exc_any with (E := fun w => provider w <> None).
    apply hoare_keeps, keeps_ask. }
  intros [|account0 rest].
  { apply hoare_exc_any with (E := fun w => provider w <> None), hoare_throw. }
  apply (hoare_bind _ (fun _ w => provider w <> None)).
  { apply hoare_exc_any with (E := fun w => provider w <> None).
    apply hoare_keeps, keeps_ask. }
  intros currentChainId. destruct (negb (supported env currentChainId)).
  - apply hoare_exc_any with (E := I), hoare_reset, reset_setContracts.
    keeps_split.
  - apply (hoare_bind _ (fun _ => validated env)); [apply hoare_validateNetwork |].
    intro. apply (hoare_bind _ (fun _ => I)); [apply hoare_initializeContracts |].
    intro. apply hoare_exc_any with (E := I), hoare_keeps. keeps_split.
Qed.

Lemma consistent_connectWallet : keeps I (connectWallet env).
Proof.
  apply keeps_of_hoare. unfold connectWallet.
  apply (hoare_bind I (fun _ => I));
    [apply hoare_keeps, consistent_setLoadingStates | intro].
  apply (hoare_bind I (fun r w => match r with Ok _ => I w | Throw _ => T w end)).
  - apply hoare_attempt, hoare_connectWallet_try.
  - intros [[]|err].
    + apply hoare_keeps, frame_connectWallet_finally, Framed_consistent.
    + apply hoare_keeps, keeps_ret.
    + apply hoare_reset.
      apply (hoare_bind T (fun _ => N)); [apply reset_connectWallet_catch | intro].
      apply hoare_keeps. unfold connectWallet_finally. keeps_split.
Qed.

Lemma Framed_unbound_validated :
  Framed (fun w => N w /\ validated env w).
Proof. constructor; intros v w H; exact H. Qed.

(** [init] starts with nothing bound. *)
Lemma hoare_init : hoare N (init env) (fun _ => I) I.
Proof.
  unfold init.
  apply (hoare_bind N (fun _ => N));
    [apply hoare_keeps_nothrow;
       [apply keeps_gets | intros w; eexists; reflexivity]
    | intros eth].
  destruct (negb eth).
  { apply hoare_keeps_N. keeps_split. }
  apply hoare_try_finally;
    [| apply frame_setLoadingStates, Framed_consistent
     | apply frame_setLoadingStates, Framed_consistent].
  apply (hoare_try_catch N (fun _ => I) N I).
  - apply (hoare_bind N (fun _ w => N w /\ provider w <> None)).
    { apply hoare_modify. intros w H. split; [exact H | discriminate]. }
    intro. apply (hoare_bind _ (fun _ w => N w /\ validated env w)).
    { intros w [HN Hp]. pose proof (hoare_validateNetwork BrowserProvider w Hp) as HV.
      pose proof (unbound_validateNetwork BrowserProvider w HN) as HN'.
      destruct (validateNetwork env BrowserProvider w) as [[r|e] w'];
        [split; [exact HN' | exact HV] | exact HN']. }
    intro. apply (hoare_bind _ (fun _ w => N w /\ validated env w)).
    { apply hoare_keeps_nothrow;
        [apply frame_ethereum_request, Framed_unbound_validated
        | apply nothrow_modify]. }
    intro. apply (hoare_bind _ (fun _ w => N w /\ validated env w)).
    { apply (hoare_conseq (fun w => N w /\ validated env w)
               (fun w => N w /\ validated env w)
               (fun _ w => N w /\ validated env w)
               (fun _ w => N w /\ validated env w)
               (fun w => N w /\ validated env w) N);
        [apply hoare_keeps, keeps_ask | auto | auto | intros w [H _]; exact H]. }
    intros [|account0 rest].
    + intros w [HN _]. apply unbound_consistent, HN.
    + apply (hoare_bind _ (fun _ => I)).
      { apply (hoare_conseq (validated env) (fun w => N w /\ validated env w)
                 (fun _ => I) (fun _ => I) N N);
          [apply hoare_initializeContracts | intros w [_ H]; exact H | auto | auto]. }
      intro. apply hoare_keeps_nothrow;
        [apply consistent_setAccount | apply nothrow_modify].
  - intro err. apply hoare_keeps_N. keeps_split.
Qed.

Lemma consistent_step ev w : I w -> I (step env ev w).
Proof.
  intros H. destruct ev; simpl.
  - destruct (_ && _); [apply keeps_exec; [apply consistent_connectWallet |] |];
      exact H.
  - destruct (is_empty _); [| apply keeps_exec; [apply consistent_switchNetwork |]];
      exact H.
  - destruct (is_empty _); [| apply keeps_exec; [apply consistent_handleLogout |]];
      exact H.
  - apply keeps_exec; [apply frame_removeToast, Framed_consistent | exact H].
  - destruct (ethereum w);
      [apply keeps_exec;
         [apply frame_handleAccountsChanged, Framed_consistent |] |]; exact H.
  - apply keeps_exec; [apply consistent_emit | exact H].
  - apply keeps_exec; [apply consistent_request_answered | exact H].
  - destruct (existsb _ _); [| exact H].
    apply keeps_exec; [apply consistent_run_timer | exact H].
  - exact H.
  - exact H.
Qed.

Lemma consistent_steps evs w : I w -> I (steps env evs w).
Proof.
  revert w. induction evs as [|ev evs IH]; intros w H; simpl; [exact H |].
  apply IH, consistent_step, H.
Qed.

Lemma consistent_mount eth wl now tape : I (mount env eth wl now tape).
Proof.
  unfold mount. apply (hoare_exec N I); [apply hoare_init | reflexivity].
Qed.
End Consistent.

(** X11: in every state a session reaches from page load, whatever the
    wallet answers and whatever events arrive, contracts are bound all or
    nothing and only with a provider and a supported chain id stored:
    either both handles are [null], or both are bound, for one network of
    the registry and one account, while [provider] is set and [chainId] is
    50 or 51. *)
Theorem contracts_bound_only_when_valid
    (env : ImportMetaEnv) (eth : bool) (wl : Wallet) (now : Z) (tape : nat -> string)
    (evs : list Event) :
  consistent env (steps env evs (mount env eth wl now tape)).
Proof. apply consistent_steps, consistent_mount. Qed.

(** X12: whenever the unsupported-network banner is rendered in a session
    reached from page load, no contract is bound, and the header names the
    network "Unsupported Network". *)
Theorem NetworkWarning_means_unbound
    (env : ImportMetaEnv) (eth : bool) (wl : Wallet) (now : Z) (tape : nat -> string)
    (evs : list Event) :
  let w := steps env evs (mount env eth wl now tape) in
  shows_NetworkWarning env w = true ->
  contracts w = no_contracts
  /\ exists id, chainId w = Some id /\ network_label id = "Unsupported Network".
Proof.
  intros w Hshow.
  pose proof (contracts_bound_only_when_valid env eth wl now tape evs) as H.
  fold w in H. unfold shows_NetworkWarning in Hshow.
  destruct (chainId w) as [id|] eqn:Hid; [| discriminate].
  apply andb_true_iff in Hshow. destruct Hshow as [_ Hs].
  apply negb_true_iff in Hs. split.
  - destruct H as [H | [_ [[id' [Hid' Hs']] _]]]; [exact H |].
    rewrite Hid in Hid'. injection Hid' as <-. congruence.
  - exists id. split; [reflexivity |].
    assert (N : ~ (id = 50 \/ id = 51)).
    { intros Hid'. apply (supported_iff env) in Hid'. congruence. }
    unfold network_label.
    destruct (Z.eqb_spec id 50); [elim N; auto |].
    destruct (Z.eqb_spec id 51); [elim N; auto |]. reflexivity.
Qed.

Lemma NetworkWarning_means_unbound_witness :
  shows_NetworkWarning scenario_env
    (steps scenario_env [chainChanged 7] connected_world) = true
  /\ contracts (steps scenario_env [chainChanged 7] connected_world) = no_contracts.
Proof.
  split; [vm_compute; reflexivity |].
  apply (NetworkWarning_means_unbound scenario_env true (scenario_wallet 51)
           1700000000000 scenario_tape [chainChanged 7]).
  vm_compute. reflexivity.
Defined.

(* ------------------------------------------------------------------ *)
(** ** What is sent to the wallet *)

Section Requests.
Variable sent : list Request.

Let P : World -> Prop := fun w => requests w = sent.

Local Ltac field := apply keeps_modify; intros w H; exact H.

Lemma sent_setProvider v : keeps P (setProvider v).
Proof. field. Qed.
Lemma sent_setContracts v : keeps P (setContracts v).
Proof. field. Qed.
Lemma sent_setAccount v : keeps P (setAccount v).
Proof. field. Qed.
Lemma sent_setChainId v : keeps P (setChainId v).
Proof. field. Qed.
Lemma sent_setToasts f : keeps P (setToasts f).
Proof. field. Qed.
Lemma sent_setLoadingStates f : keeps P (setLoadingStates f).
Proof. field. Qed.
Lemma sent_lastErrorKey v : keeps P (modify (with_lastErrorKey v)).
Proof. field. Qed.
Lemma sent_Date_now : keeps P Date_now.
Proof. apply keeps_gets. Qed.
Lemma sent_Math_random : keeps P Math_random.
Proof. intros w H. exact H. Qed.
Lemma sent_setTimeout a d : keeps P (setTimeout a d).
Proof. field. Qed.
Lemma sent_clearTimeout a : keeps P (clearTimeout a).
Proof. field. Qed.
Lemma sent_ethereum_on l : keeps P (ethereum_on l).
Proof. field. Qed.
Lemma sent_ethereum_removeListener l : keeps P (ethereum_removeListener l).
Proof. field. Qed.
Lemma sent_update_run i f : keeps P (update_run i f).
Proof. field. Qed.
Lemma sent_get_run i : keeps P (get_run i).
Proof. apply keeps_gets. Qed.
Lemma sent_getSigner p a : keeps P (getSigner p a).
Proof. intros w H. unfold getSigner. destruct (getSigner_error (wallet w)); exact H. Qed.

Hint Resolve sent_setProvider sent_setContracts sent_setAccount sent_setChainId
  sent_setToasts sent_setLoadingStates sent_lastErrorKey sent_Date_now
  sent_Math_random sent_setTimeout sent_clearTimeout sent_ethereum_on
  sent_ethereum_removeListener sent_update_run sent_get_run sent_getSigner : keeps.

Lemma sent_addToast message type : keeps P (addToast message type).
Proof. unfold addToast. keeps_split. Qed.
Hint Resolve sent_addToast : keeps.

Lemma sent_handleError e context : keeps P (handleError e context).
Proof. unfold handleError. keeps_split. Qed.
Hint Resolve sent_handleError : keeps.

Lemma sent_validateNetwork env p : keeps P (validateNetwork env p).
Proof. unfold validateNetwork. keeps_split. Qed.
Hint Resolve sent_validateNetwork : keeps.

Lemma sent_initializeContracts env p a : keeps P (initializeContracts env p a).
Proof. unfold initializeContracts. keeps_split. Qed.
Hint Resolve sent_initializeContracts : keeps.

Lemma sent_handleChainChanged env n : keeps P (handleChainChanged env n).
Proof. unfold handleChainChanged. keeps_split. Qed.

Lemma sent_handleAccountsChanged accounts : keeps P (handleAccountsChanged accounts).
Proof. unfold handleAccountsChanged. keeps_split. Qed.

Lemma sent_handleLogout : keeps P handleLogout.
Proof. unfold handleLogout. keeps_split. Qed.

Lemma sent_connectWallet_resumed r : keeps P (connectWallet_resumed r).
Proof.
  unfold connectWallet_resumed, connectWallet_catch, connectWallet_finally.
  keeps_split.
Qed.
Hint Resolve sent_connectWallet_resumed : keeps.

Lemma sent_switchNetwork_settle i caller r : keeps P (switchNetwork_settle i caller r).
Proof. unfold switchNetwork_settle. keeps_split. Qed.
Hint Resolve sent_switchNetwork_settle : keeps.

Lemma sent_switchNetwork_catch i caller e : keeps P (switchNetwork_catch i caller e).
Proof. unfold switchNetwork_catch. keeps_split. Qed.
Hint Resolve sent_switchNetwork_catch : keeps.

Lemma sent_switchNetwork_confirmed env i run :
  keeps P (switchNetwork_confirmed env i run).
Proof. unfold switchNetwork_confirmed. keeps_split. Qed.
Hint Resolve sent_switchNetwork_confirmed : keeps.

Lemma sent_await_networkSwitchPromise env i :
  keeps P (await_networkSwitchPromise env i).
Proof. unfold await_networkSwitchPromise. keeps_split. Qed.
Hint Resolve sent_await_networkSwitchPromise : keeps.

Lemma sent_settle_promise env i outcome : keeps P (settle_promise env i outcome).
Proof. unfold settle_promise. keeps_split. Qed.
Hint Resolve sent_settle_promise : keeps.

Lemma sent_run_chainChangeHandler env i n : keeps P (run_chainChangeHandler env i n).
Proof. unfold run_chainChangeHandler. keeps_split. Qed.

Lemma sent_emit env n ls : keeps P (emit env n ls).
Proof.
  induction ls as [|l ls IH]; simpl; [apply keeps_ret |].
  apply keeps_bind; [| intro; exact IH].
  destruct l; simpl; [apply sent_handleChainChanged | apply sent_run_chainChangeHandler].
Qed.

Lemma sent_run_timer env a : keeps P (run_timer env a).
Proof. destruct a; simpl; [| unfold run_switch_timeout]; keeps_split. Qed.
End Requests.

(** X13: the wallet is sent requests by the flows the user starts, not by
    what the wallet pushes.  An account-changed or chain-changed event, a
    timer, a dismissed toast and a logout send nothing, whatever
    re-validation and re-binding they trigger; a click on the connect
    button, a click on a network button and the answer to a switch-chain
    request are the only turns of the event loop that do. *)
Theorem wallet_events_send_no_request (env : ImportMetaEnv) (ev : Event) (w : World) :
  may_request ev = false -> requests (step env ev w) = requests w.
Proof.
  intros Hev. destruct ev; try discriminate; simpl.
  - destruct (is_empty _); [reflexivity |].
    apply (keeps_exec _ _ _ (sent_handleLogout (requests w))). reflexivity.
  - reflexivity.
  - destruct (ethereum w); [| reflexivity].
    apply (keeps_exec _ _ _ (sent_handleAccountsChanged (requests w) accounts)).
    reflexivity.
  - apply (keeps_exec _ _ _ (sent_emit (requests w) env newChainIdNumber (listeners w))).
    reflexivity.
  - destruct (existsb _ _); [| reflexivity].
    apply (keeps_exec _ _ _ (sent_run_timer (requests w) env a)). reflexivity.
  - reflexivity.
  - reflexivity.
Qed.

Lemma wallet_events_send_no_request_witness :
  requests (step scenario_env (chainChanged 50)
              (with_wallet (scenario_wallet 50) connected_world))
    = [req_eth_accounts].
Proof.
  rewrite (wallet_events_send_no_request scenario_env (chainChanged 50)
             (with_wallet (scenario_wallet 50) connected_world) eq_refl).
  reflexivity.
Defined.

(* ------------------------------------------------------------------ *)
(** ** Network switch protocol: how a run ends *)

Lemma handleError_timers (e : JsError) (context : string) (w : World) (i : nat) :
  has_timer (RejectSwitch i) (exec (handleError e context) w)
    = has_timer (RejectSwitch i) w.
Proof.
  unfold has_timer, exec, handleError, bind, Date_now, gets. simpl.
  destruct (lastErrorKey w) as [k|]; [destruct (String.eqb k _) |];
    try reflexivity; simpl; rewrite existsb_app; simpl; apply orb_false_r.
Qed.

Lemma addToast_timers (message : string) (type : ToastType) (w : World) (i : nat) :
  has_timer (RejectSwitch i) (exec (addToast message type) w)
    = has_timer (RejectSwitch i) w.
Proof.
  unfold has_timer, exec, addToast, bind, Date_now, gets. simpl.
  rewrite existsb_app. simpl. apply orb_false_r.
Qed.

(** The world the outer [catch] of [switchNetwork] leaves when the run was
    started by a button. *)
Lemma switchNetwork_catch_button i e w :
  exec (switchNetwork_catch i FromButton e) w =
    let wh := exec (handleError e "switchNetwork") w in
    with_runs (map_nth i (with_run_phase (Settled (Throw e))) (runs wh))
      (with_loadingStates (set_ls_wallet false (loadingStates wh))
         (with_provider None (with_contracts no_contracts wh))).
Proof.
  unfold exec, switchNetwork_catch.
  destruct (handleError_run e "switchNetwork" w) as [r Hr].
  erewrite bind_ok by exact Hr. reflexivity.
Qed.

(** ... and when it was started by [connectWallet], whose own [catch] and
    [finally] then run. *)
Lemma switchNetwork_catch_connect i e w :
  exec (switchNetwork_catch i FromConnectWallet e) w =
    exec connectWallet_finally
      (with_account ""
         (with_provider None
            (with_contracts no_contracts
               (exec (handleError e "connectWallet")
                  (exec (switchNetwork_catch i FromButton e) w))))).
Proof.
  rewrite switchNetwork_catch_button. unfold exec, switchNetwork_catch.
  destruct (handleError_run e "switchNetwork" w) as [r Hr].
  erewrite bind_ok by exact Hr.
  erewrite bind_ok by reflexivity. erewrite bind_ok by reflexivity.
  unfold switchNetwork_settle.
  erewrite bind_ok by reflexivity. erewrite bind_ok by reflexivity.
  unfold connectWallet_resumed, connectWallet_catch.
  match goal with
  | |- context [handleError e "connectWallet" ?w0] =>
      destruct (handleError_run e "connectWallet" w0) as [r' Hr']
  end.
  erewrite bind_ok; cycle 1.
  { erewrite bind_ok by exact Hr'. reflexivity. }
  reflexivity.
Qed.

(** What the outer [catch] of [switchNetwork] leaves, for either caller. *)
Lemma switchNetwork_catch_summary i caller e w :
  let w' := exec (switchNetwork_catch i caller e) w in
  contracts w' = no_contracts
  /\ provider w' = None
  /\ ls_wallet (loadingStates w') = false
  /\ runs w' = map_nth i (with_run_phase (Settled (Throw e))) (runs w)
  /\ listeners w' = listeners w
  /\ has_timer (RejectSwitch i) w' = has_timer (RejectSwitch i) w
  /\ chainId w' = chainId w
  /\ account w' = match caller with
                  | FromButton => account w
                  | FromConnectWallet => ""
                  end
  /\ lastErrorKey w' = Some (errorKey_of e (clock w)).
Proof.
  assert (B : let w' := exec (switchNetwork_catch i FromButton e) w in
              contracts w' = no_contracts /\ provider w' = None
              /\ ls_wallet (loadingStates w') = false
              /\ runs w' = map_nth i (with_run_phase (Settled (Throw e))) (runs w)
              /\ listeners w' = listeners w
              /\ has_timer (RejectSwitch i) w' = has_timer (RejectSwitch i) w
              /\ chainId w' = chainId w /\ account w' = account w
              /\ lastErrorKey w' = Some (errorKey_of e (clock w))
              /\ clock w' = clock w).
  { cbv zeta. rewrite switchNetwork_catch_button. cbv zeta.
    destruct (handleError_frame e "switchNetwork" w)
      as [_ [_ [Ha [Hc [_ [Hl [_ [Hr [Hk _]]]]]]]]].
    pose proof (handleError_timers e "switchNetwork" w i) as Ht.
    pose proof (handleError_key e "switchNetwork" w) as Hkey.
    repeat split; try assumption. world_simpl. now rewrite Hr. }
  cbv zeta in B. destruct B as [B1 [B2 [B3 [B4 [B5 [B6 [B7 [B8 [B9 B10]]]]]]]]].
  destruct caller; cbv zeta.
  - repeat split; assumption.
  - rewrite switchNetwork_catch_connect.
    set (wb := exec (switchNetwork_catch i FromButton e) w) in *.
    destruct (handleError_frame e "connectWallet" wb)
      as [_ [_ [_ [Hc [_ [Hl [_ [Hr _]]]]]]]].
    pose proof (handleError_timers e "connectWallet" wb i) as Ht.
    pose proof (handleError_key e "connectWallet" wb) as Hkey.
    split; [reflexivity |]. split; [reflexivity |]. split; [reflexivity |].
    split; [transitivity (runs wb); [exact Hr | exact B4] |].
    split; [transitivity (listeners wb); [exact Hl | exact B5] |].
    split; [transitivity (has_timer (RejectSwitch i) wb); [exact Ht | exact B6] |].
    split; [transitivity (chainId wb); [exact Hc | exact B7] |].
    split; [reflexivity |].
    transitivity (Some (errorKey_of e (clock wb))); [exact Hkey | now rewrite B10].
Qed.

Lemma phase_of_settled i (runs0 : list SwitchRun) run r w :
  nth_error runs0 i = Some run ->
  runs w = map_nth i (with_run_phase (Settled r)) runs0 ->
  phase_of i w = Some (Settled r).
Proof.
  intros H E. unfold phase_of. rewrite E, nth_error_map_nth, H. reflexivity.
Qed.

Lemma settle_promise_rejects env i run e w :
  nth_error (runs w) i = Some run ->
  run_phase run = AwaitConfirmation ->
  run_promise run = Pending ->
  exec (settle_promise env i (Rejected e)) w =
    exec (switchNetwork_catch i (run_caller run) e)
      (with_runs (map_nth i (with_run_promise (Rejected e)) (runs w)) w).
Proof.
  intros H Hph Hpr. unfold exec, settle_promise, get_run.
  erewrite bind_ok by reflexivity. rewrite H, Hpr.
  erewrite bind_ok by reflexivity. rewrite Hph.
  unfold await_networkSwitchPromise, get_run. erewrite bind_ok by reflexivity.
  world_simpl. rewrite nth_error_map_nth, H. reflexivity.
Qed.

(** X14: a run that awaits the confirmation when its 10-second timer fires
    ends with the error "Network switch timeout": both contracts are
    [null], the provider is dropped, the wallet loading flag is cleared and
    the error has gone through [handleError].  The listeners are as they
    were.  When [connectWallet] awaited the run, the account is emptied
    too; otherwise it is kept. *)
Theorem switch_times_out (env : ImportMetaEnv) (w : World) (i : nat) (run : SwitchRun) :
  nth_error (runs w) i = Some run ->
  run_phase run = AwaitConfirmation ->
  run_promise run = Pending ->
  existsb (timer_is_due (clock w) (RejectSwitch i)) (timers w) = true ->
  let w' := step env (TimerFires (RejectSwitch i)) w in
  phase_of i w' = Some (Settled (Throw (Error "Network switch timeout")))
  /\ contracts w' = no_contracts
  /\ provider w' = None
  /\ ls_wallet (loadingStates w') = false
  /\ listeners w' = listeners w
  /\ account w' = match run_caller run with
                  | FromButton => account w
                  | FromConnectWallet => ""
                  end
  /\ lastErrorKey w' = Some (errorKey_of (Error "Network switch timeout") (clock w)).
Proof.
  intros H Hph Hpr Hdue w'.
  set (e := Error "Network switch timeout").
  set (w0 := with_timers (remove_first_timer (RejectSwitch i) (timers w)) w).
  assert (Ew : w' =
    exec (switchNetwork_catch i (run_caller run) e)
      (with_runs (map_nth i (with_run_promise (Rejected e)) (runs w)) w0)).
  { unfold w', step. rewrite Hdue. unfold run_timer, run_switch_timeout.
    apply (settle_promise_rejects env i run e w0 H Hph Hpr). }
  destruct (switchNetwork_catch_summary i (run_caller run) e
              (with_runs (map_nth i (with_run_promise (Rejected e)) (runs w)) w0))
    as [S1 [S2 [S3 [S4 [S5 [_ [_ [S8 S9]]]]]]]].
  rewrite <- Ew in S1, S2, S3, S4, S5, S8, S9.
  split; [| repeat split; assumption].
  apply (phase_of_settled i _ (with_run_promise (Rejected e) run) _ _
           (eq_trans (nth_error_map_nth _ _ _) (f_equal _ H)) S4).
Qed.

Lemma switch_times_out_witness :
  let w :=
    steps scenario_env
      [ClickSwitchNetwork "mainnet"; RequestAnswered 0 (Ok tt); TimePasses 10000]
      connected_world in
  let w' := step scenario_env (TimerFires (RejectSwitch 0)) w in
  bound_contracts (APOTHEM scenario_env) "0x1111" <> no_contracts
  /\ provider w <> None
  /\ contracts w' = no_contracts /\ provider w' = None /\ account w' = "0x1111".
Proof.
  intros w w'.
  split; [discriminate |]. split; [vm_compute; discriminate |].
  destruct (switch_times_out scenario_env w 0
              {| run_network := MAINNET scenario_env; run_chainIdHex := "0x32";
                 run_account := "0x1111"; run_promise := Pending;
                 run_phase := AwaitConfirmation; run_caller := FromButton |})
    as [_ [H2 [H3 [_ [_ [H6 _]]]]]].
  - vm_compute. reflexivity.
  - reflexivity.
  - reflexivity.
  - vm_compute. reflexivity.
  - split; [exact H2 | split; [exact H3 | exact H6]].
Defined.

Lemma request_answered_rejected env i run e w :
  nth_error (runs w) i = Some run ->
  (run_phase run = AwaitSwitchRequest /\ code_is e 4902 = false)
  \/ run_phase run = AwaitAddRequest ->
  exec (request_answered env i (Throw e)) w =
    exec (switchNetwork_catch i (run_caller run) e) w.
Proof.
  intros H Hph. unfold exec, request_answered, get_run.
  erewrite bind_ok by reflexivity. rewrite H.
  destruct Hph as [[Hph Hcode] | Hph]; rewrite Hph; [rewrite Hcode |]; reflexivity.
Qed.

(** X15: when the wallet refuses the switch-chain request of a run with a
    code other than 4902, or refuses the register-chain request, the run
    ends with that error: both contracts are [null], the provider is
    dropped, the wallet loading flag is cleared, the error has gone through
    [handleError] and nothing more is sent.  The run's chain-changed
    listener and its 10-second timer are left as they were: still
    registered and still pending. *)
Theorem switch_request_refused (env : ImportMetaEnv) (w : World) (i : nat)
    (run : SwitchRun) (e : JsError) :
  nth_error (runs w) i = Some run ->
  (run_phase run = AwaitSwitchRequest /\ code_is e 4902 = false)
  \/ run_phase run = AwaitAddRequest ->
  let w' := step env (RequestAnswered i (Throw e)) w in
  phase_of i w' = Some (Settled (Throw e))
  /\ contracts w' = no_contracts
  /\ provider w' = None
  /\ ls_wallet (loadingStates w') = false
  /\ requests w' = requests w
  /\ listeners w' = listeners w
  /\ has_timer (RejectSwitch i) w' = has_timer (RejectSwitch i) w
  /\ lastErrorKey w' = Some (errorKey_of e (clock w)).
Proof.
  intros H Hph w'.
  assert (Ew : w' = exec (switchNetwork_catch i (run_caller run) e) w).
  { unfold w', step. now apply request_answered_rejected. }
  destruct (switchNetwork_catch_summary i (run_caller run) e w)
    as [S1 [S2 [S3 [S4 [S5 [S6 [_ [_ S9]]]]]]]].
  rewrite <- Ew in S1, S2, S3, S4, S5, S6, S9.
  split; [exact (phase_of_settled i _ run _ _ H S4) |].
  repeat split; try assumption.
  rewrite Ew.
  apply (keeps_exec _ _ _ (sent_switchNetwork_catch (requests w) i _ e)). reflexivity.
Qed.

Lemma switch_request_refused_witness :
  let w := step scenario_env (ClickSwitchNetwork "mainnet") connected_world in
  let w' :=
    step scenario_env
      (RequestAnswered 0
         (Throw {| err_code := Some 4001; err_message := Some "User rejected" |})) w in
  phase_of 0 w'
    = Some (Settled (Throw {| err_code := Some 4001;
                              err_message := Some "User rejected" |}))
  /\ listeners w' = [AppChainHandler; chainChangeHandler 0]
  /\ has_timer (RejectSwitch 0) w' = true
  /\ map toast_message (toasts w') = ["Transaction cancelled by user"].
Proof.
  intros w w'.
  destruct (switch_request_refused scenario_env w 0
              {| run_network := MAINNET scenario_env; run_chainIdHex := "0x32";
                 run_account := "0x1111"; run_promise := Pending;
                 run_phase := AwaitSwitchRequest; run_caller := FromButton |}
              {| err_code := Some 4001; err_message := Some "User rejected" |})
    as [H1 [_ [_ [_ [_ [H6 [H7 _]]]]]]].
  - vm_compute. reflexivity.
  - left. split; reflexivity.
  - split; [exact H1 |].
    split; [transitivity (listeners w); [exact H6 | vm_compute; reflexivity] |].
    split; [transitivity (has_timer (RejectSwitch 0) w);
              [exact H7 | vm_compute; reflexivity]
           | vm_compute; reflexivity].
Defined.

Lemma network_of_type_found env networkType :
  supported env (net_chainId (network_of_type env networkType)) = true
  /\ find_network env (net_chainId (network_of_type env networkType))
     = Some (network_of_type env networkType).
Proof. unfold network_of_type. destruct (String.eqb _ _); split; reflexivity. Qed.

Lemma listener_removed (l : Listener) (ls : list Listener) :
  existsb (fun x => Listener_eqb x l)
    (filter (fun x => negb (Listener_eqb x l)) ls) = false.
Proof.
  induction ls as [|x ls IH]; simpl; [reflexivity |].
  destruct (Listener_eqb x l) eqn:E; simpl; [exact IH | now rewrite E].
Qed.

Lemma timer_cleared (a : TimerAction) (ts : list Timer) :
  existsb (fun t => TimerAction_eqb (timer_action t) a)
    (filter (fun t => negb (TimerAction_eqb (timer_action t) a)) ts) = false.
Proof.
  induction ts as [|x ts IH]; simpl; [reflexivity |].
  destruct (TimerAction_eqb (timer_action x) a) eqn:E; simpl;
    [exact IH | now rewrite E].
Qed.

(** X16: a chain-changed event for the target of a run that awaits the
    confirmation, with the wallet healthy on that chain.  The run's
    listener removes itself and cancels the run's timer, and the run ends
    well: a fresh provider is stored, the chain id is the target's, both
    contracts are bound to the target network's addresses, "Successfully
    switched to" the network is shown and the wallet loading flag is
    cleared.  The signer is the one of the account the run captured when
    it started, whatever the session's account is by now. *)
Theorem switch_confirmed_binds (env : ImportMetaEnv) (w : World) (i : nat)
    (run : SwitchRun) (networkType : string) :
  nth_error (runs w) i = Some run ->
  run_phase run = AwaitConfirmation ->
  run_promise run = Pending ->
  run_network run = network_of_type env networkType ->
  run_account run <> "" ->
  healthy_on (net_chainId (run_network run)) (wallet w) ->
  let w' := exec (run_chainChangeHandler env i (net_chainId (run_network run))) w in
  phase_of i w' = Some (Settled (Ok tt))
  /\ contracts w' = bound_contracts (run_network run) (run_account run)
  /\ chainId w' = Some (net_chainId (run_network run))
  /\ provider w' = Some BrowserProvider
  /\ ls_wallet (loadingStates w') = false
  /\ has_listener (chainChangeHandler i) w' = false
  /\ has_timer (RejectSwitch i) w' = false
  /\ has_message ("Successfully switched to " +++ net_name (run_network run))
       (toasts w') = true.
Proof.
  intros H Hph Hpr Hnet Hacc Hh w'.
  set (id := net_chainId (run_network run)) in *.
  set (w3 := with_runs (map_nth i (with_run_promise Resolved) (runs w))
               (with_listeners
                  (filter (fun x => negb (Listener_eqb x (chainChangeHandler i)))
                     (listeners w))
                  (with_timers
                     (filter (fun t => negb (TimerAction_eqb (timer_action t)
                                               (RejectSwitch i))) (timers w)) w))).
  assert (Hs : supported env id = true /\ find_network env id = Some (run_network run)).
  { unfold id. rewrite Hnet. apply network_of_type_found. }
  destruct Hs as [Hs Hfind].
  destruct (validate_and_bind_ok env (run_account run)
              (with_provider (Some BrowserProvider) w3) id (ret tt) Hh Hs)
    as [n [Hf E]].
  rewrite Hfind in Hf. injection Hf as <-.
  set (wB := with_loadingStates
               (set_ls_contracts false
                  (loadingStates (with_provider (Some BrowserProvider) w3)))
               (with_contracts (bound_contracts (run_network run) (run_account run))
                  (with_chainId (Some id)
                     (with_provider (Some BrowserProvider) w3)))) in *.
  set (msg := "Successfully switched to " +++ net_name (run_network run)).
  assert (Ew : w' =
    exec (switchNetwork_settle i (run_caller run) (Ok tt))
      (exec (addToast msg success) wB)).
  { unfold w', exec, run_chainChangeHandler, get_run.
    erewrite bind_ok by reflexivity. rewrite H. fold id. rewrite Z.eqb_refl.
    erewrite bind_ok by reflexivity. erewrite bind_ok by reflexivity.
    unfold settle_promise, get_run. erewrite bind_ok by reflexivity.
    world_simpl. rewrite H, Hpr. erewrite bind_ok by reflexivity. rewrite Hph.
    unfold await_networkSwitchPromise, get_run. erewrite bind_ok by reflexivity.
    world_simpl. rewrite nth_error_map_nth, H. cbn [option_map]. world_simpl.
    unfold switchNetwork_confirmed. world_simpl.
    destruct (run_account run) as [|c s] eqn:Ea; [now elim Hacc |].
    erewrite attempt_run; cycle 1.
    { erewrite bind_ok; cycle 1.
      { erewrite bind_ok by reflexivity. exact E. }
      apply addToast_run. }
    reflexivity. }
  assert (Hruns : runs w' =
            map_nth i (with_run_phase (Settled (Ok tt)))
              (map_nth i (with_run_promise Resolved) (runs w))).
  { rewrite Ew. destruct (run_caller run); reflexivity. }
  split.
  { apply (phase_of_settled i _ (with_run_promise Resolved run) _ _
             (eq_trans (nth_error_map_nth _ _ _) (f_equal _ H)) Hruns). }
  split; [rewrite Ew; destruct (run_caller run); reflexivity |].
  split; [rewrite Ew; destruct (run_caller run); reflexivity |].
  split; [rewrite Ew; destruct (run_caller run); reflexivity |].
  split; [rewrite Ew; destruct (run_caller run); reflexivity |].
  split.
  { rewrite Ew. unfold has_listener.
    transitivity (existsb (fun x => Listener_eqb x (chainChangeHandler i))
                    (listeners w3)).
    - destruct (run_caller run); reflexivity.
    - apply listener_removed. }
  split.
  { transitivity (has_timer (RejectSwitch i) (exec (addToast msg success) wB)).
    - rewrite Ew. destruct (run_caller run); reflexivity.
    - rewrite addToast_timers. apply timer_cleared. }
  transitivity (has_message msg (toasts (exec (addToast msg success) wB))).
  - rewrite Ew. destruct (run_caller run); reflexivity.
  - apply addToast_shows.
Qed.

Lemma switch_confirmed_binds_witness :
  let w :=
    steps scenario_env
      [ClickSwitchNetwork "mainnet"; RequestAnswered 0 (Ok tt);
       accountsChanged ["0x2222"]; WalletChanges (scenario_wallet 50)]
      connected_world in
  let w' := exec (run_chainChangeHandler scenario_env 0 50) w in
  account w' = "0x2222"
  /\ contracts w' = bound_contracts (MAINNET scenario_env) "0x1111"
  /\ has_listener (chainChangeHandler 0) w' = false.
Proof.
  intros w w'. split; [vm_compute; reflexivity |].
  destruct (switch_confirmed_binds scenario_env w 0
              {| run_network := MAINNET scenario_env; run_chainIdHex := "0x32";
                 run_account := "0x1111"; run_promise := Pending;
                 run_phase := AwaitConfirmation; run_caller := FromButton |}
              "mainnet")
    as [_ [H2 [_ [_ [_ [H6 _]]]]]].
  - vm_compute. reflexivity.
  - reflexivity.
  - reflexivity.
  - reflexivity.
  - discriminate.
  - split; [vm_compute; reflexivity |].
    split; [exists 4242; vm_compute; reflexivity | vm_compute; reflexivity].
  - split; [exact H2 | exact H6].
Defined.

(* ------------------------------------------------------------------ *)
(** ** Logout *)

(** X17: logout is local and lasting.  A click on logout empties the
    account, unbinds both contracts and shows "Logged out successfully"; it
    keeps the provider and the chain id and sends nothing to the wallet.
    Afterwards, when no switch started with an account is still in flight,
    the account stays empty and the contracts unbound through every
    chain-changed event, timer and wallet answer, until the connect button
    is clicked or the wallet pushes an account-changed event. *)
Theorem logout_is_local_and_lasting (env : ImportMetaEnv) (w : World)
    (evs : list Event) :
  account w <> "" ->
  Forall run_quiet (runs w) ->
  Forall no_reconnect evs ->
  let w1 := step env ClickLogout w in
  let w2 := steps env evs w1 in
  account w1 = ""
  /\ contracts w1 = no_contracts
  /\ provider w1 = provider w
  /\ chainId w1 = chainId w
  /\ requests w1 = requests w
  /\ has_message "Logged out successfully" (toasts w1) = true
  /\ account w2 = ""
  /\ contracts w2 = no_contracts.
Proof.
  intros Ha Hq Hevs w1 w2.
  assert (E1 : w1 = exec handleLogout w).
  { unfold w1, step. destruct (account w); [now elim Ha | reflexivity]. }
  assert (H1 : disconnected w1).
  { rewrite E1. split; [reflexivity |]. split; [reflexivity | exact Hq]. }
  pose proof (disc_steps env evs w1 Hevs H1) as [Ha2 [Hc2 _]].
  rewrite E1. repeat split; try assumption.
  apply (addToast_shows "Logged out successfully" success
           (with_contracts no_contracts (with_account "" w))).
Qed.

Lemma logout_is_local_and_lasting_witness :
  let w2 :=
    steps scenario_env
      [ClickLogout; WalletChanges (scenario_wallet 50); chainChanged 50]
      connected_world in
  account w2 = "" /\ contracts w2 = no_contracts /\ chainId w2 = Some 50.
Proof.
  intros w2.
  destruct (logout_is_local_and_lasting scenario_env connected_world
              [WalletChanges (scenario_wallet 50); chainChanged 50])
    as [_ [_ [_ [_ [_ [_ [H7 H8]]]]]]].
  - discriminate.
  - constructor.
  - repeat constructor.
  - split; [exact H7 | split; [exact H8 | vm_compute; reflexivity]].
Defined.
